(** * Evaluation analysis for recommender output (eval-report.ipynb)

    A shallow embedding of the notebook's code cells: the input loader
    (cells "Load Data"), the metric table and its fill step (cell "Compute
    Metrics"), the three significance sections (Friedman test followed by the
    Wilcoxon post-hoc loop, for precision, ndcg and recip_rank) and the
    per-user prediction RMSE.

    Numbers are IEEE binary64 floats, as in Python and numpy: a missing value
    of a pandas float column is the float NaN.  The statistical tests of
    scipy, the CSV parser of pandas and the metric functions of lenskit are
    library code: they are parameters of the sections that call them.  A
    Python exception is an explicit [Raise]; what a cell prints and which
    library tests it calls are recorded in a trace of events. *)

From Stdlib Require Import String Ascii List ZArith Bool Arith Lia Floats Uint63.
From Stdlib Require Import Sorted Permutation OrderedTypeEx.
Import ListNotations.
Local Open Scope string_scope.
Local Open Scope list_scope.

Set Warnings "-inexact-float".

(* ------------------------------------------------------------------ *)
(** ** Python values: exceptions, list indexing, floats               *)
(* ------------------------------------------------------------------ *)

Module Py.

(** The exceptions the cells can end with.  [OtherError] stands for what a
    library function may raise besides these. *)
Inductive exn : Type :=
| IndexError
| KeyError (key : string)
| ValueError
| OtherError (name : string).

Inductive result (A : Type) : Type :=
| Ok (a : A)
| Raise (e : exn).
Arguments Ok {A} a.
Arguments Raise {A} e.

Definition rbind {A B} (r : result A) (k : A -> result B) : result B :=
  match r with
  | Ok a => k a
  | Raise e => Raise e
  end.

(** [l[i]] for a non-negative index. *)
Definition index {A} (l : list A) (i : nat) : result A :=
  match nth_error l i with
  | Some x => Ok x
  | None => Raise IndexError
  end.

(** [range(n)] *)
Definition range (n : nat) : list nat := seq 0 n.

(** [float(n)] for a length. *)
Definition float_of_nat (n : nat) : float :=
  PrimFloat.of_uint63 (Uint63.of_Z (Z.of_nat n)).

(** [itertools.combinations(pool, r)]: the [r]-element subsequences of the
    pool, in lexicographic order of their positions. *)
Fixpoint combinations {A} (r : nat) (pool : list A) : list (list A) :=
  match r with
  | 0 => [[]]
  | S r' =>
      (fix from (pool : list A) : list (list A) :=
         match pool with
         | [] => []
         | x :: rest => map (cons x) (combinations r' rest) ++ from rest
         end) pool
  end.

End Py.

Import Py.

(* ------------------------------------------------------------------ *)
(** ** Cells with output: a trace of events and an outcome            *)
(* ------------------------------------------------------------------ *)

(** One row of the output of a post-hoc test: the [pd.Series] that
    [wilcox_bonf] returns. *)
Record PairwiseTestResult : Type := {
  Pair : string * string;
  Statistics : float;
  p_value : float;
  Decision : string
}.

Inductive event : Type :=
| Called_friedmanchisquare (samples : list (list float))
| Called_wilcoxon (x y : list float)
| Printed_omnibus (stat p : float)
| Printed_pair (r : PairwiseTestResult).

(** A computation yields the events it produced and either a value or the
    exception that stopped it. *)
Definition M (A : Type) : Type := list event * result A.

Definition ret {A} (a : A) : M A := ([], Ok a).

Definition bind {A B} (c : M A) (k : A -> M B) : M B :=
  match c with
  | (t, Ok a) => let (t', r) := k a in (t ++ t', r)
  | (t, Raise e) => (t, Raise e)
  end.

Definition lift {A} (r : result A) : M A := ([], r).

Definition emit (e : event) : M unit := ([e], Ok tt).

Notation "x <- c ;; k" := (bind c (fun x => k))
  (at level 61, c at next level, right associativity).
Notation "' pat <- c ;; k" := (bind c (fun x => match x with pat => k end))
  (at level 61, pat pattern, c at next level, right associativity).
Notation "c ;;; k" := (bind c (fun _ => k))
  (at level 61, right associativity).

(** [for x in xs: body(x)] *)
Fixpoint for_each {A} (xs : list A) (body : A -> M unit) : M unit :=
  match xs with
  | [] => ret tt
  | x :: rest => body x ;;; for_each rest body
  end.

Definition trace {A} (c : M A) : list event := fst c.
Definition outcome {A} (c : M A) : result A := snd c.

Definition is_wilcoxon_call (e : event) : bool :=
  match e with Called_wilcoxon _ _ => true | _ => false end.

Definition is_friedman_call (e : event) : bool :=
  match e with Called_friedmanchisquare _ => true | _ => false end.

(** The post-hoc results a run printed, in order. *)
Fixpoint printed_pairs (t : list event) : list PairwiseTestResult :=
  match t with
  | [] => []
  | Printed_pair r :: rest => r :: printed_pairs rest
  | _ :: rest => printed_pairs rest
  end.

(* ------------------------------------------------------------------ *)
(** ** The metric table                                                *)
(* ------------------------------------------------------------------ *)

(** A row of [results]: the index columns [algorithm] and [user], the three
    metric columns and the two bookkeeping columns.  All value columns are
    float columns; NaN is the missing value. *)
Record MetricRow : Type := {
  algorithm : string;
  user : Z;
  precision : float;
  recip_rank : float;
  ndcg : float;
  nrecs : float;
  ntruth : float
}.

Definition fillna_cell (v : float) (x : float) : float :=
  if PrimFloat.is_nan x then v else x.

(** [results.fillna(0)]: every value column, the index is left alone. *)
Definition fillna0_row (r : MetricRow) : MetricRow :=
  {| algorithm := algorithm r;
     user := user r;
     precision := fillna_cell 0 (precision r);
     recip_rank := fillna_cell 0 (recip_rank r);
     ndcg := fillna_cell 0 (ndcg r);
     nrecs := fillna_cell 0 (nrecs r);
     ntruth := fillna_cell 0 (ntruth r) |}.

Definition fillna0 (df : list MetricRow) : list MetricRow := map fillna0_row df.

(** The value columns of a row. *)
Definition value_cells (r : MetricRow) : list float :=
  [precision r; recip_rank r; ndcg r; nrecs r; ntruth r].

(* ------------------------------------------------------------------ *)
(** ** Grouping by algorithm                                           *)
(* ------------------------------------------------------------------ *)

(** [groupby] sorts the group keys and keeps each key once. *)
Fixpoint insert_key {K} (cmp : K -> K -> comparison) (k : K) (ks : list K) : list K :=
  match ks with
  | [] => [k]
  | k' :: rest =>
      match cmp k k' with
      | Lt => k :: ks
      | Eq => ks
      | Gt => k' :: insert_key cmp k rest
      end
  end.

Definition sorted_keys {K} (cmp : K -> K -> comparison) (col : list K) : list K :=
  fold_right (insert_key cmp) [] col.

(** The strict order of the string keys. *)
Definition key_lt (a b : string) : Prop := String.compare a b = Lt.

(** [(results.reset_index()).groupby("algorithm")]: one group per algorithm,
    in key order, each with its rows in table order. *)
Definition groupby_algorithm (df : list MetricRow) : list (string * list MetricRow) :=
  map (fun k => (k, filter (fun r => String.eqb (algorithm r) k) df))
      (sorted_keys String.compare (map algorithm df)).

(** What the loop over the groups leaves in [alg_names] and [alg_vals]. *)
Definition alg_names_of (df : list MetricRow) : list string :=
  map fst (groupby_algorithm df).

Definition alg_vals_of (metric : MetricRow -> float) (df : list MetricRow)
  : list (list float) :=
  map (fun g => map metric (snd g)) (groupby_algorithm df).

(** The number of algorithms present in the table. *)
Definition n_algorithms (df : list MetricRow) : nat :=
  length (groupby_algorithm df).

(* ------------------------------------------------------------------ *)
(** ** The significance sections                                       *)
(* ------------------------------------------------------------------ *)

Definition decision_same : string := "Metric is the same (fail to reject H0)".
Definition decision_different : string := "Metric is different (reject H0)".

(** The globals a Friedman cell leaves for the post-hoc cell. *)
Record Globals : Type := {
  alg_vals : list (list float);
  alg_names : list string;
  stat : float;
  p : float
}.

Section Significance.

(** [scipy.stats.friedmanchisquare] on a list of samples and
    [scipy.stats.wilcoxon] on two samples:
    each returns [(statistic, pvalue)] or raises. *)
Variable friedmanchisquare : list (list float) -> result (float * float).
Variable wilcoxon : list float -> list float -> result (float * float).

Definition call_friedmanchisquare (samples : list (list float)) : M (float * float) :=
  emit (Called_friedmanchisquare samples) ;;; lift (friedmanchisquare samples).

Definition call_wilcoxon (x y : list float) : M (float * float) :=
  emit (Called_wilcoxon x y) ;;; lift (wilcoxon x y).

(** The Friedman cell of a metric section. *)
Definition friedman_cell (metric : MetricRow -> float) (results : list MetricRow)
  : M Globals :=
  let alg_names := alg_names_of results in
  let alg_vals := alg_vals_of metric results in
  a0 <- lift (index alg_vals 0) ;;
  a1 <- lift (index alg_vals 1) ;;
  a2 <- lift (index alg_vals 2) ;;
  a3 <- lift (index alg_vals 3) ;;
  '(stat, p) <- call_friedmanchisquare [a0; a1; a2; a3] ;;
  emit (Printed_omnibus stat p) ;;;
  ret {| alg_vals := alg_vals; alg_names := alg_names; stat := stat; p := p |}.

(** *** Precision: the post-hoc cell *)

Definition n_compare_precision : list (list nat) := combinations 2 (range 4).

Definition wilcox_bonf_precision (data1 data2 : list float) (alg_pair : string * string)
  : M PairwiseTestResult :=
  let alpha := 0.05%float in
  '(stat, p) <- call_wilcoxon data1 data2 ;;
  let new_alpha := (alpha / float_of_nat (length n_compare_precision))%float in
  let decision :=
    if (new_alpha <? p)%float then decision_same else decision_different in
  ret {| Pair := alg_pair; Statistics := stat; p_value := p; Decision := decision |}.

(** *** ndcg: the post-hoc cell *)

Definition n_compare_ndcg : list (list nat) := combinations 2 (range 4).

Definition wilcox_bonf_ndcg (data1 data2 : list float) (alg_pair : string * string)
  : M PairwiseTestResult :=
  let alpha := 0.05%float in
  '(stat, p) <- call_wilcoxon data1 data2 ;;
  let new_alpha := (alpha / float_of_nat (length n_compare_ndcg))%float in
  let decision :=
    if (new_alpha <? p)%float then decision_same else decision_different in
  ret {| Pair := alg_pair; Statistics := stat; p_value := p; Decision := decision |}.

(** *** recip_rank: the post-hoc cell *)

Definition n_compare_recip_rank : list (list nat) := combinations 2 (range 4).

Definition wilcox_bonf_recip_rank (data1 data2 : list float) (alg_pair : string * string)
  : M PairwiseTestResult :=
  let alpha := 0.05%float in
  '(stat, p) <- call_wilcoxon data1 data2 ;;
  let new_alpha := (alpha / float_of_nat (length n_compare_recip_rank))%float in
  let decision :=
    if (new_alpha <? p)%float then decision_same else decision_different in
  ret {| Pair := alg_pair; Statistics := stat; p_value := p; Decision := decision |}.

(** The loop that ends each post-hoc cell, over that cell's [n_compare] and
    [wilcox_bonf]; [alg_vals] and [alg_names] are the globals of the
    Friedman cell above it. *)
Definition posthoc_loop
    (n_compare : list (list nat))
    (wilcox_bonf : list float -> list float -> string * string -> M PairwiseTestResult)
    (g : Globals) : M unit :=
  for_each n_compare (fun idx =>
    i <- lift (index idx 0) ;;
    j <- lift (index idx 1) ;;
    data1 <- lift (index (alg_vals g) i) ;;
    data2 <- lift (index (alg_vals g) j) ;;
    name1 <- lift (index (alg_names g) i) ;;
    name2 <- lift (index (alg_names g) j) ;;
    result <- wilcox_bonf data1 data2 (name1, name2) ;;
    emit (Printed_pair result)).

(** A metric section: its Friedman cell, then its post-hoc cell.  A cell
    that raises stops the run. *)
Definition precision_section (results : list MetricRow) : M unit :=
  g <- friedman_cell precision results ;;
  posthoc_loop n_compare_precision wilcox_bonf_precision g.

Definition ndcg_section (results : list MetricRow) : M unit :=
  g <- friedman_cell ndcg results ;;
  posthoc_loop n_compare_ndcg wilcox_bonf_ndcg g.

Definition recip_rank_section (results : list MetricRow) : M unit :=
  g <- friedman_cell recip_rank results ;;
  posthoc_loop n_compare_recip_rank wilcox_bonf_recip_rank g.

(** The significance-testing stage: the three sections in notebook order. *)
Definition significance_stage (results : list MetricRow) : M unit :=
  precision_section results ;;;
  ndcg_section results ;;;
  recip_rank_section results.

End Significance.

(* ------------------------------------------------------------------ *)
(** ** Data frames                                                     *)
(* ------------------------------------------------------------------ *)

Module Frame.

Inductive cell : Type :=
| Str (s : string)
| Int (z : Z)
| Num (x : float).

(** A table has its column labels and its rows; a row maps column labels to
    cells, and a column a row has no cell for reads as NaN. *)
Definition row : Type := list (string * cell).

Record DataFrame : Type := {
  columns : list string;
  rows : list row
}.

Definition has_column (c : string) (df : DataFrame) : bool :=
  existsb (String.eqb c) (columns df).

Fixpoint lookup (c : string) (r : row) : option cell :=
  match r with
  | [] => None
  | (c', v) :: rest => if String.eqb c c' then Some v else lookup c rest
  end.

Definition get (c : string) (r : row) : cell :=
  match lookup c r with
  | Some v => v
  | None => Num PrimFloat.nan
  end.

Fixpoint set (c : string) (v : cell) (r : row) : row :=
  match r with
  | [] => [(c, v)]
  | (c', v') :: rest =>
      if String.eqb c c' then (c, v) :: rest else (c', v') :: set c v rest
  end.

(** [df[c]]: the cells of a column, [KeyError] when the table has no such
    column. *)
Definition column (c : string) (df : DataFrame) : result (list cell) :=
  if has_column c df then Ok (map (get c) (rows df)) else Raise (KeyError c).

(** [df[c] = v] for a scalar [v]: the column is replaced, or added last. *)
Definition assign (c : string) (v : cell) (df : DataFrame) : DataFrame :=
  {| columns := if has_column c df then columns df else columns df ++ [c];
     rows := map (set c v) (rows df) |}.

Definition add_columns (seen new : list string) : list string :=
  seen ++ filter (fun c => negb (existsb (String.eqb c) seen)) (nodup string_dec new).

(** [pd.concat(frames, ignore_index=True)]: the rows of all frames under
    the union of their columns; [ValueError] for an empty list. *)
Definition concat (frames : list DataFrame) : result DataFrame :=
  match frames with
  | [] => Raise ValueError
  | _ =>
      Ok {| columns := fold_left (fun seen df => add_columns seen (columns df)) frames [];
            rows := flat_map rows frames |}
  end.

End Frame.

Import Frame.

(* ------------------------------------------------------------------ *)
(** ** The input loader                                                *)
(* ------------------------------------------------------------------ *)

(** The part of the file system the notebook reads: the entries of
    [output_root], each with the files it holds, and the files of the split
    directory of the dataset. *)
Record File : Type := {
  file_name : string;
  content : string
}.

Record Folder : Type := {
  name : string;
  files : list File
}.

(** [s.split(sep)] for a one-character separator. *)
Fixpoint split (sep : ascii) (s : string) : list string :=
  match s with
  | EmptyString => [EmptyString]
  | String c rest =>
      if Ascii.eqb c sep then EmptyString :: split sep rest
      else match split sep rest with
           | [] => [String c EmptyString]
           | w :: ws => String c w :: ws
           end
  end.

Fixpoint ends_with (suffix s : string) : bool :=
  if String.eqb suffix s then true
  else match s with
       | EmptyString => false
       | String _ rest => ends_with suffix rest
       end.

(** A loop that threads an accumulator and stops at the first exception. *)
Fixpoint foldM {A B} (step : B -> A -> result B) (xs : list A) (acc : B) : result B :=
  match xs with
  | [] => Ok acc
  | x :: rest => rbind (step acc x) (foldM step rest)
  end.

Definition dash : ascii := "-"%char.

Section Loader.

(** [pd.read_csv(file, sep=',')] on the content of a file. *)
Variable read_csv : string -> result DataFrame.

(** [output_root.glob(f'{dataset}-*')], for a dataset name that the pattern
    reads literally (a [plain_name] below): the folders whose name starts
    with the dataset name and a dash.  In a dataset name, [*], [?] and a
    bracketed class are read as wildcards and [/] as a path separator, and
    the pattern then matches other names as well; whatever the dataset name,
    a name that the pattern matches holds a dash. *)
Definition dirs (dataset : string) (output_root : list Folder) : list Folder :=
  filter (fun fld => String.prefix (dataset ++ "-") (name fld)) output_root.

(** [fld.glob("recs-*")], [fld.glob("pred-*")] *)
Definition glob_prefix (pre : string) (fld : Folder) : list File :=
  filter (fun f => String.prefix pre (file_name f)) (files fld).

(** The body of the inner loop: read, tag, append. *)
Definition read_tagged (fld : Folder) (acc : list DataFrame) (file : File)
  : result (list DataFrame) :=
  rbind (read_csv (content file)) (fun rec =>
  rbind (index (split dash (name fld)) 0) (fun ds =>
  let rec := assign "dataset" (Str ds) rec in
  rbind (index (split dash (name fld)) 1) (fun alg =>
  let rec := assign "algorithm" (Str alg) rec in
  Ok (acc ++ [rec])))).

(** The two nested loops over the folders and their matching files. *)
Definition read_all (pre : string) (dirs : list Folder) : result (list DataFrame) :=
  foldM (fun acc fld => foldM (read_tagged fld) (glob_prefix pre fld) acc) dirs [].

(** The [recs] cell.  The final [astype] to categories changes no value. *)
Definition load_recs (dataset : string) (output_root : list Folder) : result DataFrame :=
  rbind (read_all "recs-" (dirs dataset output_root)) concat.

(** The [preds] cell. *)
Definition load_preds (dataset : string) (output_root : list Folder) : result DataFrame :=
  rbind (read_all "pred-" (dirs dataset output_root)) concat.

(** The [test] cell, over the files of [split_root / dataset]. *)
Definition load_test (split_dir : list File) : result DataFrame :=
  rbind
    (foldM (fun acc file => rbind (read_csv (content file)) (fun t => Ok (acc ++ [t])))
           (filter (fun f => String.prefix "test-" (file_name f) && ends_with ".csv" (file_name f))
                   split_dir)
           [])
    concat.

(** The files a load reads: the matching files of the matching folders. *)
Definition matched_files (pre dataset : string) (output_root : list Folder) : list File :=
  flat_map (glob_prefix pre) (dirs dataset output_root).

Definition parses (f : File) : bool :=
  match read_csv (content f) with Ok _ => true | Raise _ => false end.

End Loader.

Definition is_raise {A} (r : result A) : bool :=
  match r with Ok _ => false | Raise _ => true end.

(** A folder that the glob of the dataset matches. *)
Definition matched (dataset : string) (fld : Folder) : Prop :=
  String.prefix (dataset ++ "-") (name fld) = true.

(** The outcome of a run of loops over files: all frames are appended when
    every file parses, an exception otherwise. *)
Definition reads_all {A} (run : list DataFrame -> result (list DataFrame))
    (fs : list A) (ok : bool) : Prop :=
  forall acc,
    if ok
    then exists frames, run acc = Ok (acc ++ frames) /\ length frames = length fs
    else is_raise (run acc) = true.

(* ------------------------------------------------------------------ *)
(** ** Prediction RMSE                                                 *)
(* ------------------------------------------------------------------ *)

Definition float_compare (x y : float) : comparison :=
  match PrimFloat.compare x y with
  | FLt => Lt
  | FGt => Gt
  | _ => Eq
  end.

(** The order of group keys.  Cells of one column have one type; cells of
    different types are ordered by type. *)
Definition cell_compare (a b : cell) : comparison :=
  match a, b with
  | Str s, Str t => String.compare s t
  | Int x, Int y => Z.compare x y
  | Num x, Num y => float_compare x y
  | Str _, _ => Lt
  | _, Str _ => Gt
  | Int _, Num _ => Lt
  | Num _, Int _ => Gt
  end.


Definition key_compare (k1 k2 : cell * cell) : comparison :=
  match cell_compare (fst k1) (fst k2) with
  | Eq => cell_compare (snd k1) (snd k2)
  | c => c
  end.

Definition key_eqb (k1 k2 : cell * cell) : bool :=
  match key_compare k1 k2 with Eq => true | _ => false end.

Definition is_missing (c : cell) : bool :=
  match c with
  | Num x => PrimFloat.is_nan x
  | _ => false
  end.

Definition key_of (r : row) : cell * cell := (get "algorithm" r, get "user" r).

(** [preds.groupby(['algorithm', 'user'])]: one sub-table per key, in key
    order; rows with a missing key are left out. *)
Definition groupby_algorithm_user (preds : DataFrame)
  : result (list ((cell * cell) * DataFrame)) :=
  if negb (has_column "algorithm" preds) then Raise (KeyError "algorithm")
  else if negb (has_column "user" preds) then Raise (KeyError "user")
  else
    let live :=
      filter (fun r => negb (is_missing (get "algorithm" r) || is_missing (get "user" r)))
             (rows preds) in
    Ok (map (fun k => (k, {| columns := columns preds;
                             rows := filter (fun r => key_eqb (key_of r) k) live |}))
            (sorted_keys key_compare (map key_of live))).

(** The groups' results in group order, stopping at the first exception. *)
Fixpoint apply_groups {G V} (f : G -> result V) (groups : list ((cell * cell) * G))
  : result (list ((cell * cell) * V)) :=
  match groups with
  | [] => Ok []
  | (k, g) :: rest =>
      rbind (f g) (fun v =>
      rbind (apply_groups f rest) (fun vs => Ok ((k, v) :: vs)))
  end.


(** [reset_index(name='RMSE')] on what [apply] returned.  With a group it is
    a series, and becomes the table of the keys and their values.  With no
    group at all [apply] returned an empty frame, whose [reset_index] takes
    no [name]: [TypeError]. *)
Definition reset_index_RMSE (applied : list ((cell * cell) * float))
  : result (list ((cell * cell) * float)) :=
  match applied with
  | [] => Raise (OtherError "TypeError")
  | _ => Ok applied
  end.

Section PredictionRMSE.

(** [lenskit.metrics.predict.rmse(predictions, truth)] *)
Variable rmse : list cell -> list cell -> result float.

(** The [user_rmse] cell: per group, the RMSE of the group's [prediction]
    column against its [rating] column, then [reset_index]. *)
Definition user_rmse (preds : DataFrame) : result (list ((cell * cell) * float)) :=
  rbind
    (rbind (groupby_algorithm_user preds)
       (apply_groups (fun df =>
          rbind (column "prediction" df) (fun predictions =>
          rbind (column "rating" df) (fun truth =>
          rmse predictions truth)))))
    reset_index_RMSE.



End PredictionRMSE.

(* ------------------------------------------------------------------ *)
(** ** The metric evaluator                                            *)
(* ------------------------------------------------------------------ *)

Record RecommendationRecord : Type := {
  rec_dataset : string;
  rec_algorithm : string;
  rec_user : Z;
  rec_item : Z;
  rec_rank : Z;
  rec_score : float
}.

Record GroundTruthRecord : Type := {
  gt_user : Z;
  gt_item : Z;
  gt_rating : float
}.

(** A comprehension that stops at the first exception. *)
Fixpoint mapM {A B} (f : A -> result B) (xs : list A) : result (list B) :=
  match xs with
  | [] => Ok []
  | x :: rest => rbind (f x) (fun y => rbind (mapM f rest) (fun ys => Ok (y :: ys)))
  end.

Section Evaluator.

(** The registered metrics [topn.precision], [topn.recip_rank] and
    [topn.ndcg]: each from the recommendation list of one user and that
    user's ground truth to a float, or an exception on data it cannot
    score. *)
Variable topn_precision topn_recip_rank topn_ndcg :
  list RecommendationRecord -> list GroundTruthRecord -> result float.

Definition algorithms (recs : list RecommendationRecord) : list string :=
  nodup string_dec (map rec_algorithm recs).

Definition truth_users (test : list GroundTruthRecord) : list Z :=
  nodup Z.eq_dec (map gt_user test).

Definition rec_list (recs : list RecommendationRecord) (a : string) (u : Z)
  : list RecommendationRecord :=
  filter (fun r => String.eqb (rec_algorithm r) a && Z.eqb (rec_user r) u) recs.

Definition user_truth (test : list GroundTruthRecord) (u : Z) : list GroundTruthRecord :=
  filter (fun t => Z.eqb (gt_user t) u) test.

Definition has_recs (recs : list RecommendationRecord) (a : string) (u : Z) : bool :=
  negb (Nat.eqb (length (rec_list recs a u)) 0).

(** Modelled from the spec: part of lenskit's [RecListAnalysis.compute].
    The users an algorithm gets a row for, "the union of recommendations and
    ground truth".  The specification fixes no order of the rows: here the
    users the algorithm has a list for come first and the users of the
    ground truth it has none for are filled in after them. *)
Definition users_of (recs : list RecommendationRecord) (test : list GroundTruthRecord)
    (a : string) : list Z :=
  let listed :=
    nodup Z.eq_dec
      (map rec_user (filter (fun r => String.eqb (rec_algorithm r) a) recs)) in
  listed ++ filter (fun u => negb (existsb (Z.eqb u) listed)) (truth_users test).

(** Modelled from the spec: part of lenskit's [RecListAnalysis.compute].
    The row of a pair: the registered metrics, in their order, on the
    recommendation list and the ground truth of the user, missing when
    there is no list, and the two counts.  An exception of a metric function
    is passed on (section 7 of the specification). *)
Definition metric_row (recs : list RecommendationRecord) (test : list GroundTruthRecord)
    (a : string) (u : Z) : result MetricRow :=
  let rl := rec_list recs a u in
  let tr := user_truth test u in
  if has_recs recs a u then
    rbind (topn_precision rl tr) (fun p =>
    rbind (topn_recip_rank rl tr) (fun rr =>
    rbind (topn_ndcg rl tr) (fun n =>
    Ok {| algorithm := a; user := u;
          precision := p;
          recip_rank := rr;
          ndcg := n;
          nrecs := float_of_nat (length rl);
          ntruth := float_of_nat (length tr) |})))
  else
    Ok {| algorithm := a; user := u;
          precision := PrimFloat.nan;
          recip_rank := PrimFloat.nan;
          ndcg := PrimFloat.nan;
          nrecs := float_of_nat 0;
          ntruth := float_of_nat (length tr) |}.

(** Modelled from the spec: [RecListAnalysis.compute] of lenskit, called
    with [include_missing=True], is not part of the notebook.  By
    sections 3 and 4.2 of the specification the table has one row per
    (algorithm, user) pair of the union of recommendations and ground
    truth; its columns are one float per registered metric and the two
    bookkeeping columns, the count of recommendations produced and the
    count of ground-truth items; a user of the ground truth an algorithm
    has no recommendations for is included, its metric values missing
    until the fill step.  By section 7 an exception of a metric function
    ends the computation. *)
Definition rla_compute (recs : list RecommendationRecord) (test : list GroundTruthRecord)
  : result (list MetricRow) :=
  rbind (mapM (fun a => mapM (metric_row recs test a) (users_of recs test a))
              (algorithms recs))
        (fun tables => Ok (List.concat tables)).

(** The "Compute Metrics" cell: [rla.compute] with [include_missing=True],
    then [fillna(0)]. *)
Definition results (recs : list RecommendationRecord) (test : list GroundTruthRecord)
  : result (list MetricRow) :=
  rbind (rla_compute recs test) (fun computed => Ok (fillna0 computed)).

(** The rows of a table for one (algorithm, user) pair. *)
Definition rows_of (df : list MetricRow) (a : string) (u : Z) : list MetricRow :=
  filter (fun r => String.eqb (algorithm r) a && Z.eqb (user r) u) df.

End Evaluator.

(* ------------------------------------------------------------------ *)
(** ** The post-hoc step over the algorithms present                   *)
(* ------------------------------------------------------------------ *)

(** The post-hoc step as the specification words it: every unordered pair of
    the given algorithms, each with its score vector, is compared once, in
    the order the pairs are generated, and one result is printed per pair. *)
Definition compare_all_pairs
    (wilcox_bonf : list float -> list float -> string * string -> M PairwiseTestResult)
    (algs : list (string * list float)) : M unit :=
  for_each (combinations 2 algs) (fun pr =>
    a <- lift (index pr 0) ;;
    b <- lift (index pr 1) ;;
    result <- wilcox_bonf (snd a) (snd b) (fst a, fst b) ;;
    emit (Printed_pair result)).

(** The Bonferroni threshold of the post-hoc cells: 0.05 over the six pairs. *)
Definition adjusted_alpha : float := (0.05 / 6)%float.

(* ------------------------------------------------------------------ *)
(** ** Concrete inputs                                                 *)
(* ------------------------------------------------------------------ *)

Module Examples.

(** Stand-ins for the library tests: an omnibus test that finds nothing
    ([p = 1]), one that finds a difference, and a paired test with a fixed
    p-value. *)
Definition friedman_no_difference (_ : list (list float)) : result (float * float) :=
  Ok (0%float, 1%float).

Definition friedman_difference (_ : list (list float)) : result (float * float) :=
  Ok (12%float, 0.001%float).

Definition wilcoxon_with (pv : float) (_ _ : list float) : result (float * float) :=
  Ok (0%float, pv).

Definition score (a : string) (u : Z) (v : float) : MetricRow :=
  {| algorithm := a; user := u; precision := v; recip_rank := v; ndcg := v;
     nrecs := 10; ntruth := 5 |}.

(** Two users scored by the given algorithms. *)
Definition table_of (algs : list string) : list MetricRow :=
  flat_map (fun a => [score a 1 0.5; score a 2 0.25]) algs.

Definition one_algorithm : list MetricRow := table_of ["ALS"].
Definition three_algorithms : list MetricRow := table_of ["II"; "ALS"; "UU"].
Definition four_algorithms : list MetricRow := table_of ["II"; "ALS"; "UU"; "Bias"].
Definition five_algorithms : list MetricRow := table_of ["II"; "ALS"; "UU"; "Bias"; "Pop"].

(** A file system and a parser given by a table from contents to frames. *)
Definition rec_frame : DataFrame :=
  {| columns := ["user"; "item"; "score"];
     rows := [[("user", Int 1); ("item", Int 10); ("score", Num 4.5)]] |}.

Definition no_user_frame : DataFrame :=
  {| columns := ["item"; "score"];
     rows := [[("item", Int 10); ("score", Num 4.5)]] |}.

Definition read_csv_stub (content : string) : result DataFrame :=
  if String.eqb content "user,item,score" then Ok rec_frame
  else if String.eqb content "item,score" then Ok no_user_frame
  else Raise (OtherError "ParserError").

Definition output_root : list Folder :=
  [ {| name := "ml100k-ALS";
       files := [ {| file_name := "recs-1.csv"; content := "user,item,score" |} ] |};
    {| name := "ml100k-Pop"; files := [] |};
    {| name := "ml1m-ALS";
       files := [ {| file_name := "recs-1.csv"; content := "garbage" |} ] |} ].

Definition output_root_no_user : list Folder :=
  [ {| name := "ml100k-ALS";
       files := [ {| file_name := "recs-1.csv"; content := "item,score" |} ] |} ].

(** A reference RMSE on cells, for the concrete runs. *)
Definition to_float (c : cell) : float :=
  match c with
  | Num x => x
  | Int z => (if Z.ltb z 0
              then - PrimFloat.of_uint63 (Uint63.of_Z (- z))
              else PrimFloat.of_uint63 (Uint63.of_Z z))%float
  | Str _ => PrimFloat.nan
  end.

Definition rmse_ref (predictions truth : list cell) : result float :=
  let sq := map (fun pt => let d := (to_float (fst pt) - to_float (snd pt))%float in (d * d)%float)
                (combine predictions truth) in
  Ok (PrimFloat.sqrt (fold_left PrimFloat.add sq 0 / float_of_nat (length sq)))%float.

(** Predictions with the columns the specification lists for them. *)
Definition preds_without_rating : DataFrame :=
  {| columns := ["user"; "item"; "prediction"; "dataset"; "algorithm"];
     rows := [[("user", Int 1); ("item", Int 10); ("prediction", Num 4);
               ("dataset", Str "ml100k"); ("algorithm", Str "ALS")]] |}.




(** Recommendations of two algorithms and a ground truth of two users:
    [Pop] has no list for user 2, who has two ground-truth items. *)
Definition rec_of (a : string) (u i : Z) : RecommendationRecord :=
  {| rec_dataset := "ml100k"; rec_algorithm := a; rec_user := u; rec_item := i;
     rec_rank := 1; rec_score := 1 |}.

Definition recs : list RecommendationRecord :=
  [rec_of "ALS" 1 10; rec_of "ALS" 2 20; rec_of "Pop" 1 10].

Definition truth : list GroundTruthRecord :=
  [ {| gt_user := 1; gt_item := 10; gt_rating := 4 |};
    {| gt_user := 2; gt_item := 20; gt_rating := 5 |};
    {| gt_user := 2; gt_item := 21; gt_rating := 3 |} ].

(** A metric for the concrete runs: the share of recommended items that are
    in the ground truth. *)
Definition hit_share (rl : list RecommendationRecord) (tr : list GroundTruthRecord)
  : result float :=
  Ok (float_of_nat
        (length (filter (fun r => existsb (fun t => Z.eqb (gt_item t) (rec_item r)) tr) rl))
      / float_of_nat (length rl))%float.

End Examples.

(* ------------------------------------------------------------------ *)
(** ** The chart table, and helpers of the loader                      *)
(* ------------------------------------------------------------------ *)

(** A row of [pltData], under its four column names. *)
Record PlotRow : Type := {
  plot_algorithm : string;
  plot_user : Z;
  plot_metric : string;
  plot_val : float
}.

(** [stack()] on one row of [results.drop(columns=['nrecs', 'ntruth'])]: one
    entry per metric column, in column order; a missing value gives no
    entry. *)
Definition stack_row (r : MetricRow) : list PlotRow :=
  flat_map (fun nv : string * float =>
              if PrimFloat.is_nan (snd nv) then []
              else [{| plot_algorithm := algorithm r; plot_user := user r;
                       plot_metric := fst nv; plot_val := snd nv |}])
           [("precision", precision r); ("recip_rank", recip_rank r); ("ndcg", ndcg r)].

(** The [pltData] cell: the stacked metric columns of [results], with the
    index turned into columns and the dataset column dropped. *)
Definition pltData (results : list MetricRow) : list PlotRow :=
  flat_map stack_row results.

(** [split_dir.glob("test-*.csv")] *)
Definition test_files (split_dir : list File) : list File :=
  filter (fun f => String.prefix "test-" (file_name f) && ends_with ".csv" (file_name f))
         split_dir.

(** [sep.join(parts)] *)
Fixpoint join (sep : ascii) (parts : list string) : string :=
  match parts with
  | [] => EmptyString
  | w :: rest =>
      match rest with
      | [] => w
      | _ => w ++ String sep (join sep rest)
      end
  end.

Fixpoint has_char (c : ascii) (s : string) : bool :=
  match s with
  | EmptyString => false
  | String a rest => Ascii.eqb a c || has_char c rest
  end.

Fixpoint count_char (c : ascii) (s : string) : nat :=
  match s with
  | EmptyString => 0
  | String a rest => (if Ascii.eqb a c then 1 else 0) + count_char c rest
  end.

(** The frame the loops append for a file of a folder: the parsed frame with
    the first two parts of the folder name as its dataset and algorithm. *)
Definition tagged_frame (read_csv : string -> result DataFrame) (pre : string)
    (ds : list Folder) (fr : DataFrame) : Prop :=
  exists fld file rec d a rest,
    In fld ds /\ In file (glob_prefix pre fld) /\
    read_csv (content file) = Ok rec /\
    split dash (name fld) = d :: a :: rest /\
    fr = assign "algorithm" (Str a) (assign "dataset" (Str d) rec).

(** The frames of the files that parse, in file order. *)
Definition parsed_frames (read_csv : string -> result DataFrame) (fs : list File)
  : list DataFrame :=
  flat_map (fun f => match read_csv (content f) with Ok t => [t] | Raise _ => [] end) fs.



(** The rows of a prediction table that [groupby] keeps: those with both
    keys present. *)
Definition live_rows (preds : DataFrame) : list row :=
  filter (fun r => negb (is_missing (get "algorithm" r) || is_missing (get "user" r)))
         (rows preds).



(** A dataset name that is a plain name: it holds none of the characters a
    glob pattern reads as a wildcard or a class, and no path separator.
    For such a name the pattern of [dirs] matches exactly the names that
    start with the dataset name and a dash. *)
Definition plain_name (s : string) : bool :=
  negb (has_char "*"%char s || has_char "?"%char s || has_char "["%char s
        || has_char "/"%char s).



Module Samples.


(** A dataset name with a dash in it, and two of its output folders. *)
Definition dashed_root : list Folder :=
  [ {| name := "ml-100k-ALS";
       files := [ {| file_name := "recs-1.csv"; content := "user,item,score" |} ] |};
    {| name := "ml-100k-Pop";
       files := [ {| file_name := "recs-1.csv"; content := "user,item,score" |} ] |} ].

Definition split_dir : list File :=
  [ {| file_name := "test-1.csv"; content := "user,item,score" |};
    {| file_name := "train-1.csv"; content := "garbage" |} ].

(** A table with a missing metric value. *)
Definition unfilled : list MetricRow :=
  [ {| algorithm := "ALS"; user := 1; precision := 0.5; recip_rank := 1; ndcg := 0.5;
       nrecs := 10; ntruth := 2 |};
    {| algorithm := "Pop"; user := 1; precision := PrimFloat.nan;
       recip_rank := PrimFloat.nan; ndcg := PrimFloat.nan; nrecs := 0; ntruth := 2 |} ].

Definition friedman_fails (_ : list (list float)) : result (float * float) :=
  Raise ValueError.

End Samples.

(* ================================================================== *)
(** * Properties                                                       *)
(* ================================================================== *)

(* ------------------------------------------------------------------ *)
(** ** Float comparisons                                               *)
(* ------------------------------------------------------------------ *)

Section FloatFacts.

Lemma SFcompare_swap (x y : spec_float) :
  SFcompare y x = option_map CompOpp (SFcompare x y).
Proof.
  destruct x as [sx|sx| |sx mx ex], y as [sy|sy| |sy my ey]; simpl; try reflexivity;
    try (destruct sx; reflexivity); try (destruct sy; reflexivity);
    try (destruct sx, sy; reflexivity).
  destruct sx, sy; simpl; try reflexivity.
  - rewrite (Z.compare_antisym ey ex). destruct (ey ?= ex)%Z; simpl; try reflexivity.
    change (PosDef.Pos.compare_cont Eq my mx) with (Pos.compare_cont (CompOpp Eq) my mx).
    rewrite <- Pos.compare_cont_antisym. reflexivity.
  - rewrite (Z.compare_antisym ey ex). destruct (ey ?= ex)%Z; simpl; try reflexivity.
    change (PosDef.Pos.compare_cont Eq my mx) with (Pos.compare_cont (CompOpp Eq) my mx).
    rewrite <- Pos.compare_cont_antisym. reflexivity.
Qed.

Lemma SFcompare_None (x y : spec_float) :
  SFcompare x y = None <-> (x = S754_nan \/ y = S754_nan).
Proof.
  destruct x, y; simpl; split; intros H; try discriminate; auto;
    try (destruct H; discriminate).
Qed.

Lemma is_nan_spec (x : float) : PrimFloat.is_nan x = true <-> Prim2SF x = S754_nan.
Proof.
  unfold PrimFloat.is_nan. rewrite FloatAxioms.eqb_spec. unfold SFeqb.
  destruct (Prim2SF x) as [s|s| |s m e]; simpl; split; intros H; try discriminate; auto.
  - destruct s; discriminate.
  - rewrite Z.compare_refl in H.
    destruct s; rewrite Pos.compare_cont_refl in H; discriminate.
Qed.

(** [x < y] is false exactly when [y <= x] or one of the two is NaN. *)
Lemma ltb_false_iff (x y : float) :
  (x <? y)%float = false <->
  ((y <=? x)%float = true \/ PrimFloat.is_nan x = true \/ PrimFloat.is_nan y = true).
Proof.
  rewrite FloatAxioms.ltb_spec, FloatAxioms.leb_spec, !is_nan_spec. unfold SFltb, SFleb.
  rewrite (SFcompare_swap (Prim2SF x) (Prim2SF y)).
  pose proof (SFcompare_None (Prim2SF x) (Prim2SF y)) as HN.
  destruct (SFcompare (Prim2SF x) (Prim2SF y)) as [[| |]|]; simpl; split; intros H;
    auto; try discriminate.
  - destruct H as [H|H]; [discriminate|]. apply HN in H. discriminate.
  - right. apply HN. reflexivity.
Qed.

Lemma fillna_cell_not_nan (x : float) : PrimFloat.is_nan (fillna_cell 0 x) = false.
Proof.
  unfold fillna_cell. destruct (PrimFloat.is_nan x) eqn:E; [reflexivity | exact E].
Qed.

End FloatFacts.

(* ------------------------------------------------------------------ *)
(** ** Combinations                                                    *)
(* ------------------------------------------------------------------ *)

Section CombinationFacts.

Context {A : Type}.

Lemma combinations_1 (l : list A) : combinations 1 l = map (fun x => [x]) l.
Proof.
  induction l as [|x l IH]; [reflexivity|].
  change (combinations 1 (x :: l)) with (map (cons x) [[]] ++ combinations 1 l).
  rewrite IH. reflexivity.
Qed.

Lemma combinations_2_cons (x : A) (l : list A) :
  combinations 2 (x :: l) = map (fun y => [x; y]) l ++ combinations 2 l.
Proof.
  change (combinations 2 (x :: l)) with (map (cons x) (combinations 1 l) ++ combinations 2 l).
  rewrite combinations_1, map_map. reflexivity.
Qed.

(** There are [n (n - 1) / 2] pairs of [n] elements. *)
Lemma combinations_2_length (l : list A) :
  2 * length (combinations 2 l) = length l * (length l - 1).
Proof.
  induction l as [|x l IH]; [reflexivity|].
  rewrite combinations_2_cons, length_app, length_map. simpl length.
  destruct l as [|y l]; [reflexivity|]. simpl length in *. nia.
Qed.

(** Every pair takes its first element before its second in the pool. *)
Lemma combinations_2_In (l : list A) (c : list A) :
  In c (combinations 2 l) <->
  exists l1 x l2 y l3, l = l1 ++ x :: l2 ++ y :: l3 /\ c = [x; y].
Proof.
  revert c. induction l as [|a l IH]; intros c.
  - simpl. split; [tauto|]. intros (l1 & x & l2 & y & l3 & E & _).
    destruct l1; discriminate.
  - rewrite combinations_2_cons, in_app_iff, in_map_iff, IH. split.
    + intros [(y & <- & Hy) | (l1 & x & l2 & y & l3 & -> & ->)].
      * apply in_split in Hy as (l2 & l3 & ->).
        exists [], a, l2, y, l3. split; reflexivity.
      * exists (a :: l1), x, l2, y, l3. split; reflexivity.
    + intros (l1 & x & l2 & y & l3 & E & ->).
      destruct l1 as [|b l1]; simpl in E; injection E as -> ->.
      * left. exists y. split; [reflexivity|]. apply in_or_app. right. left. reflexivity.
      * right. exists l1, x, l2, y, l3. split; reflexivity.
Qed.

(** Over a pool without repetition no pair is generated twice. *)
Lemma combinations_2_NoDup (l : list A) : NoDup l -> NoDup (combinations 2 l).
Proof.
  induction 1 as [|x l Hx Hl IH]; [constructor|].
  rewrite combinations_2_cons. apply NoDup_app; [|exact IH|].
  - clear Hx IH. induction Hl as [|y l Hy Hl IH']; simpl; constructor; auto.
    rewrite in_map_iff. intros (z & E & Hz). injection E as ->. contradiction.
  - intros c Hc Hc'. apply in_map_iff in Hc as (y & <- & _).
    apply combinations_2_In in Hc' as (l1 & x' & l2 & y' & l3 & -> & E).
    injection E as <- <-. apply Hx. apply in_or_app. right. left. reflexivity.
Qed.

(** In a pool of two elements or more every element is in some pair. *)
Lemma combinations_2_cover (l : list A) (x : A) :
  2 <= length l -> In x l -> exists c, In c (combinations 2 l) /\ In x c.
Proof.
  intros Hlen Hx. apply in_split in Hx as (l1 & l2 & ->).
  destruct l2 as [|y l3].
  - destruct l1 as [|y l1]; [simpl in Hlen; lia|].
    exists [y; x]. split; [|right; left; reflexivity].
    apply combinations_2_In. exists [], y, l1, x, []. split; reflexivity.
  - exists [x; y]. split; [|left; reflexivity].
    apply combinations_2_In. exists l1, x, [], y, l3. split; reflexivity.
Qed.

Lemma NoDup_firstn (n : nat) (l : list A) : NoDup l -> NoDup (firstn n l).
Proof.
  intros H. rewrite <- (firstn_skipn n l) in H. exact (NoDup_app_remove_r _ _ H).
Qed.

End CombinationFacts.

(* ------------------------------------------------------------------ *)
(** ** Group keys                                                      *)
(* ------------------------------------------------------------------ *)

Section KeyFacts.



Lemma key_lt_trans (a b c : string) : key_lt a b -> key_lt b c -> key_lt a c.
Proof.
  unfold key_lt. intros H1 H2.
  apply String_as_OT.cmp_lt. apply String_as_OT.cmp_lt in H1, H2.
  exact (String_as_OT.lt_trans _ _ _ H1 H2).
Qed.

Lemma key_lt_irrefl (a : string) : ~ key_lt a a.
Proof.
  unfold key_lt. intros H. pose proof (String.compare_antisym a a) as E.
  rewrite H in E. discriminate E.
Qed.

Lemma insert_key_In (k x : string) (ks : list string) :
  In x (insert_key String.compare k ks) <-> x = k \/ In x ks.
Proof.
  induction ks as [|k' ks IH]; cbn [insert_key].
  - simpl. intuition.
  - destruct (String.compare k k') eqn:E.
    + apply String.compare_eq_iff in E. subst k'. simpl. intuition.
    + simpl. intuition.
    + simpl. rewrite IH. intuition.
Qed.

Lemma insert_key_sorted (k : string) (ks : list string) :
  StronglySorted key_lt ks -> StronglySorted key_lt (insert_key String.compare k ks).
Proof.
  induction 1 as [|k' ks Hs IH Hall]; cbn [insert_key].
  - constructor; constructor.
  - destruct (String.compare k k') eqn:E.
    + constructor; assumption.
    + constructor; [constructor; assumption|]. constructor; [exact E|].
      eapply Forall_impl; [|exact Hall]. intros x Hx. exact (key_lt_trans _ _ _ E Hx).
    + constructor; [exact IH|]. apply Forall_forall. intros x Hx.
      apply insert_key_In in Hx as [->|Hx].
      * unfold key_lt. rewrite String.compare_antisym, E. reflexivity.
      * rewrite Forall_forall in Hall. exact (Hall x Hx).
Qed.

Lemma sorted_keys_sorted (col : list string) :
  StronglySorted key_lt (sorted_keys String.compare col).
Proof.
  induction col as [|k col IH]; cbn [sorted_keys fold_right]; [constructor|].
  apply insert_key_sorted. exact IH.
Qed.

Lemma sorted_keys_In (col : list string) (x : string) :
  In x (sorted_keys String.compare col) <-> In x col.
Proof.
  induction col as [|k col IH]; cbn [sorted_keys fold_right]; [reflexivity|].
  rewrite insert_key_In. fold (sorted_keys String.compare col). rewrite IH.
  simpl. intuition.
Qed.

Lemma sorted_NoDup (ks : list string) : StronglySorted key_lt ks -> NoDup ks.
Proof.
  induction 1 as [|k ks Hs IH Hall]; constructor; [|exact IH].
  intros Hin. rewrite Forall_forall in Hall. exact (key_lt_irrefl k (Hall k Hin)).
Qed.

(** The group keys are the algorithms of the table, each once, in order. *)
Lemma alg_names_of_spec (results : list MetricRow) :
  alg_names_of results = sorted_keys String.compare (map algorithm results).
Proof.
  unfold alg_names_of, groupby_algorithm. rewrite map_map. apply map_id.
Qed.

Lemma alg_names_NoDup (results : list MetricRow) : NoDup (alg_names_of results).
Proof. rewrite alg_names_of_spec. apply sorted_NoDup, sorted_keys_sorted. Qed.

Lemma alg_names_In (results : list MetricRow) (a : string) :
  In a (alg_names_of results) <-> exists r, In r results /\ algorithm r = a.
Proof.
  rewrite alg_names_of_spec, sorted_keys_In, in_map_iff. split.
  - intros (r & E & Hr). exists r. auto.
  - intros (r & Hr & E). exists r. auto.
Qed.

End KeyFacts.

(* ------------------------------------------------------------------ *)
(** ** The significance sections                                       *)
(* ------------------------------------------------------------------ *)

Section SignificanceFacts.

Variable friedmanchisquare : list (list float) -> result (float * float).
Variable wilcoxon : list float -> list float -> result (float * float).

Lemma bind_lift_Ok {A B} (a : A) (k : A -> M B) : bind (lift (Ok a)) k = k a.
Proof. unfold bind, lift. destruct (k a). reflexivity. Qed.

Lemma names_vals_length (metric : MetricRow -> float) (results : list MetricRow) :
  length (alg_names_of results) = n_algorithms results /\
  length (alg_vals_of metric results) = n_algorithms results.
Proof.
  unfold alg_names_of, alg_vals_of, n_algorithms. rewrite !length_map. split; reflexivity.
Qed.

Lemma call_friedmanchisquare_eq (samples : list (list float)) :
  call_friedmanchisquare friedmanchisquare samples =
  ([Called_friedmanchisquare samples], friedmanchisquare samples).
Proof. reflexivity. Qed.

Lemma call_wilcoxon_eq (x y : list float) :
  call_wilcoxon wilcoxon x y = ([Called_wilcoxon x y], wilcoxon x y).
Proof. reflexivity. Qed.

(** With fewer than four groups the Friedman cell stops at an index of
    [alg_vals], before any test is called or anything is printed. *)
Lemma friedman_cell_too_few (metric : MetricRow -> float) (results : list MetricRow) :
  n_algorithms results < 4 ->
  friedman_cell friedmanchisquare metric results = ([], Raise IndexError).
Proof.
  unfold friedman_cell, alg_vals_of, alg_names_of, n_algorithms.
  destruct (groupby_algorithm results) as [|g0 [|g1 [|g2 [|g3 rest]]]]; simpl;
    intros H; try reflexivity; lia.
Qed.

(** With four groups or more it is the test on the first four vectors. *)
Lemma friedman_cell_four (metric : MetricRow -> float) (results : list MetricRow) :
  4 <= n_algorithms results ->
  friedman_cell friedmanchisquare metric results =
  ('(s, pv) <- call_friedmanchisquare friedmanchisquare
                 (firstn 4 (alg_vals_of metric results)) ;;
   emit (Printed_omnibus s pv) ;;;
   ret {| alg_vals := alg_vals_of metric results;
          alg_names := alg_names_of results;
          stat := s; p := pv |}).
Proof.
  unfold friedman_cell, alg_vals_of, alg_names_of, n_algorithms.
  destruct (groupby_algorithm results) as [|g0 [|g1 [|g2 [|g3 rest]]]]; simpl;
    intros H; try lia.
  destruct (friedmanchisquare _) as [[s pv]|e]; reflexivity.
Qed.

(** The post-hoc loop reads the score vectors and the names, never the
    statistic or the p-value of the omnibus test. *)
Lemma posthoc_loop_ignores_omnibus n_compare wilcox_bonf (g : Globals) (s pv : float) :
  posthoc_loop n_compare wilcox_bonf g =
  posthoc_loop n_compare wilcox_bonf
    {| alg_vals := alg_vals g; alg_names := alg_names g; stat := s; p := pv |}.
Proof. reflexivity. Qed.

Lemma wilcox_bonf_precision_eq (data1 data2 : list float) (alg_pair : string * string) :
  wilcox_bonf_precision wilcoxon data1 data2 alg_pair =
  match wilcoxon data1 data2 with
  | Ok (s, pv) =>
      ([Called_wilcoxon data1 data2],
       Ok {| Pair := alg_pair; Statistics := s; p_value := pv;
             Decision := if (adjusted_alpha <? pv)%float
                         then decision_same else decision_different |})
  | Raise e => ([Called_wilcoxon data1 data2], Raise e)
  end.
Proof.
  unfold wilcox_bonf_precision. rewrite call_wilcoxon_eq.
  destruct (wilcoxon data1 data2) as [[s pv]|e]; reflexivity.
Qed.

Lemma decisions_differ : decision_same <> decision_different.
Proof. apply String.eqb_neq. reflexivity. Qed.

(** The six comparisons of the four leading groups, written out. *)
Lemma posthoc_loop_first_four wilcox_bonf
    (n0 n1 n2 n3 : string) (ns : list string)
    (v0 v1 v2 v3 : list float) (vs : list (list float)) (s pv : float) :
  posthoc_loop n_compare_precision wilcox_bonf
    {| alg_vals := v0 :: v1 :: v2 :: v3 :: vs;
       alg_names := n0 :: n1 :: n2 :: n3 :: ns; stat := s; p := pv |} =
  compare_all_pairs wilcox_bonf [(n0, v0); (n1, v1); (n2, v2); (n3, v3)].
Proof.
  unfold posthoc_loop, compare_all_pairs.
  change n_compare_precision with [[0; 1]; [0; 2]; [0; 3]; [1; 2]; [1; 3]; [2; 3]].
  change (combinations 2 [(n0, v0); (n1, v1); (n2, v2); (n3, v3)])
    with [[(n0, v0); (n1, v1)]; [(n0, v0); (n2, v2)]; [(n0, v0); (n3, v3)];
          [(n1, v1); (n2, v2)]; [(n1, v1); (n3, v3)]; [(n2, v2); (n3, v3)]].
  cbn [for_each]. unfold index.
  repeat (cbn [nth_error alg_vals alg_names fst snd]; rewrite bind_lift_Ok).
  reflexivity.
Qed.

End SignificanceFacts.

(** The three sections run the same cells, each on its own metric column. *)
Lemma sections_same_code F W (results : list MetricRow) :
  ndcg_section F W results =
    (g <- friedman_cell F ndcg results ;;
     posthoc_loop n_compare_precision (wilcox_bonf_precision W) g) /\
  recip_rank_section F W results =
    (g <- friedman_cell F recip_rank results ;;
     posthoc_loop n_compare_precision (wilcox_bonf_precision W) g).
Proof. split; reflexivity. Qed.

(** A section over four groups or more: the omnibus test on the first four
    score vectors, then the comparisons of the first four groups. *)
Lemma section_first_four F W (metric : MetricRow -> float) (results : list MetricRow)
    (s pv : float) :
  4 <= n_algorithms results ->
  F (firstn 4 (alg_vals_of metric results)) = Ok (s, pv) ->
  (g <- friedman_cell F metric results ;;
   posthoc_loop n_compare_precision (wilcox_bonf_precision W) g) =
  (emit (Called_friedmanchisquare (firstn 4 (alg_vals_of metric results))) ;;;
   emit (Printed_omnibus s pv) ;;;
   compare_all_pairs (wilcox_bonf_precision W)
     (firstn 4 (combine (alg_names_of results) (alg_vals_of metric results)))).
Proof.
  intros Hn HF. rewrite friedman_cell_four by exact Hn.
  rewrite call_friedmanchisquare_eq, HF.
  unfold alg_vals_of, alg_names_of, n_algorithms in *.
  destruct (groupby_algorithm results) as [|g0 [|g1 [|g2 [|g3 rest]]]];
    simpl in Hn; try lia.
  cbn [map combine firstn].
  pose proof (posthoc_loop_first_four (wilcox_bonf_precision W)
                (fst g0) (fst g1) (fst g2) (fst g3) (map fst rest)
                (map metric (snd g0)) (map metric (snd g1))
                (map metric (snd g2)) (map metric (snd g3))
                (map (fun g => map metric (snd g)) rest) s pv) as E.
  unfold bind at 1 2. unfold emit at 1 2 3. unfold ret at 1. cbn [bind app].
  rewrite E.
  destruct (compare_all_pairs _ _) as [t r]. reflexivity.
Qed.

(** C1 (the code departs from the claim and from the notebook's own text,
    which says the post-hoc test is performed only when the Friedman result
    is significant): run on four algorithms with an omnibus test that returns
    p = 1, which is not below 0.05, the precision section still calls the
    Wilcoxon test for all six pairs and prints six results; nothing in the
    section reads the omnibus p-value. *)
Theorem C1_posthoc_runs_when_not_significant :
  let run := precision_section Examples.friedman_no_difference
               (Examples.wilcoxon_with 0.5) Examples.four_algorithms in
  In (Printed_omnibus 0 1) (trace run) /\
  (1 <? 0.05)%float = false /\
  length (filter is_wilcoxon_call (trace run)) = 6 /\
  length (printed_pairs (trace run)) = 6 /\
  outcome run = Ok tt.
Proof.
  vm_compute. repeat split; try reflexivity. right. left. reflexivity.
Qed.

(** C3, as stated, fails at the boundary: a Wilcoxon p-value equal to the
    adjusted threshold 0.05/6 is not strictly below it, yet the decision is
    "different". *)
Lemma C3_counterexample_boundary :
  (adjusted_alpha <? adjusted_alpha)%float = false /\
  outcome (wilcox_bonf_precision (Examples.wilcoxon_with adjusted_alpha) [] [] ("ALS", "II")) =
    Ok {| Pair := ("ALS", "II"); Statistics := 0; p_value := adjusted_alpha;
          Decision := decision_different |}.
Proof. split; reflexivity. Qed.

(** C3 (amended): in each of the three post-hoc cells the adjusted threshold
    is 0.05 divided by the number of comparisons of the cell, six, and a
    result that [wilcox_bonf] returns carries the statistic and p-value of
    the Wilcoxon test; its decision is "same" exactly when the p-value is
    strictly above the threshold, and "different" exactly when the p-value is
    at most the threshold or is NaN. *)
Theorem C3_decision_by_adjusted_alpha :
  forall W wilcox_bonf (data1 data2 : list float) (alg_pair : string * string)
         (r : PairwiseTestResult),
    In wilcox_bonf [wilcox_bonf_precision W; wilcox_bonf_ndcg W; wilcox_bonf_recip_rank W] ->
    outcome (wilcox_bonf data1 data2 alg_pair) = Ok r ->
    adjusted_alpha = (0.05 / float_of_nat (length n_compare_precision))%float /\
    length n_compare_precision = 6 /\
    W data1 data2 = Ok (Statistics r, p_value r) /\
    Pair r = alg_pair /\
    (Decision r = decision_same <-> (adjusted_alpha <? p_value r)%float = true) /\
    (Decision r = decision_different <->
       ((p_value r <=? adjusted_alpha)%float = true \/ PrimFloat.is_nan (p_value r) = true)).
Proof.
  intros W wb d1 d2 pair r Hwb Hr.
  assert (Hp : outcome (wilcox_bonf_precision W d1 d2 pair) = Ok r).
  { destruct Hwb as [<-|[<-|[<-|[]]]]; exact Hr. }
  clear Hwb Hr. rewrite wilcox_bonf_precision_eq in Hp.
  split; [reflexivity|]. split; [reflexivity|].
  destruct (W d1 d2) as [[s pv]|e]; [|discriminate].
  injection Hp as <-. cbn [Statistics p_value Pair Decision].
  split; [reflexivity|]. split; [reflexivity|].
  assert (Hnan : PrimFloat.is_nan adjusted_alpha = false) by reflexivity.
  pose proof (ltb_false_iff adjusted_alpha pv) as Hlt.
  pose proof decisions_differ as Hd.
  destruct (adjusted_alpha <? pv)%float eqn:E.
  - split; [split; reflexivity|]. split; intros H.
    + exfalso. exact (Hd H).
    + exfalso. destruct Hlt as [_ Hlt].
      assert (true = false) as Habs; [|discriminate Habs].
      apply Hlt. destruct H as [H|H]; [left; exact H | right; right; exact H].
  - split.
    + split; intros H; [|discriminate H]. exfalso. apply Hd. symmetry. exact H.
    + split; intros H; [|reflexivity].
      destruct Hlt as [Hlt _]. destruct (Hlt eq_refl) as [H1|[H1|H1]].
      * left; exact H1.
      * rewrite Hnan in H1. discriminate H1.
      * right; exact H1.
Qed.

Lemma C3_decision_by_adjusted_alpha_witness :
  Decision {| Pair := ("ALS", "II"); Statistics := 0; p_value := 0.5;
              Decision := decision_same |} = decision_same <->
  (adjusted_alpha <? 0.5)%float = true.
Proof.
  pose proof (C3_decision_by_adjusted_alpha (Examples.wilcoxon_with 0.5)
                (wilcox_bonf_ndcg (Examples.wilcoxon_with 0.5)) [] [] ("ALS", "II")
                {| Pair := ("ALS", "II"); Statistics := 0; p_value := 0.5;
                   Decision := decision_same |}
                (or_intror (or_introl eq_refl)) eq_refl) as H.
  exact (proj1 (proj2 (proj2 (proj2 (proj2 H))))).
Defined.

(** C4, as stated, fails with five algorithms, also when the omnibus test is
    significant: the precision section prints six results, not the ten of
    all pairs of the five, and the last algorithm in key order, UU, is in no
    pair. *)
Lemma C4_counterexample_five_algorithms :
  let run := precision_section Examples.friedman_difference
               (Examples.wilcoxon_with 0.001) Examples.five_algorithms in
  alg_names_of Examples.five_algorithms = ["ALS"; "Bias"; "II"; "Pop"; "UU"] /\
  In (Printed_omnibus 12 0.001) (trace run) /\
  (0.001 <? 0.05)%float = true /\
  map Pair (printed_pairs (trace run)) =
    [("ALS", "Bias"); ("ALS", "II"); ("ALS", "Pop");
     ("Bias", "II"); ("Bias", "Pop"); ("II", "Pop")] /\
  length (combinations 2 (alg_names_of Examples.five_algorithms)) = 10.
Proof.
  vm_compute. repeat split; try reflexivity. right. left. reflexivity.
Qed.

(** C4 (amended): in each of the three sections, when at least four
    algorithms are present and the omnibus test is significant, the post-hoc
    step compares the unordered pairs of the first four algorithms in key
    order, six pairs, each once, and prints one result per pair in the order
    the pairs are generated.  With exactly four algorithms present these are
    all the algorithms: every one takes part. *)
Theorem C4_posthoc_pairs_of_first_four :
  forall F W (section : list MetricRow -> M unit) (metric : MetricRow -> float)
         (results : list MetricRow) (s pv : float),
    In (section, metric)
       [(precision_section F W, precision); (ndcg_section F W, ndcg);
        (recip_rank_section F W, recip_rank)] ->
        4 <= n_algorithms results ->
    F (firstn 4 (alg_vals_of metric results)) = Ok (s, pv) ->
    (pv <? 0.05)%float = true ->
    section results =
      (emit (Called_friedmanchisquare (firstn 4 (alg_vals_of metric results))) ;;;
       emit (Printed_omnibus s pv) ;;;
       compare_all_pairs (wilcox_bonf_precision W)
         (firstn 4 (combine (alg_names_of results) (alg_vals_of metric results)))) /\
    length (combinations 2
              (firstn 4 (combine (alg_names_of results) (alg_vals_of metric results)))) = 6 /\
        NoDup (combinations 2 (firstn 4 (alg_names_of results))) /\
    (n_algorithms results = 4 ->
     firstn 4 (combine (alg_names_of results) (alg_vals_of metric results)) =
       combine (alg_names_of results) (alg_vals_of metric results) /\
     forall r, In r results ->
       exists c, In c (combinations 2 (firstn 4 (alg_names_of results))) /\
                 In (algorithm r) c).
Proof.
    intros F W section metric results s pv Hsec Hn HF _.
  pose proof (names_vals_length metric results) as [Hnames Hvals].
  assert (Hlen : length (combine (alg_names_of results) (alg_vals_of metric results))
                 = n_algorithms results).
  { rewrite length_combine, Hnames, Hvals. apply Nat.min_id. }
    split; [|split; [|split]].
  - pose proof (section_first_four F W metric results s pv Hn HF) as E.
    destruct Hsec as [H|[H|[H|[]]]]; injection H as <- <-; exact E.
  - pose proof (combinations_2_length
                  (firstn 4 (combine (alg_names_of results) (alg_vals_of metric results)))) as E.
    rewrite length_firstn, Hlen in E. rewrite Nat.min_l in E by exact Hn. lia.
    - apply combinations_2_NoDup, NoDup_firstn, alg_names_NoDup.
  - intros H4. split; [apply firstn_all2; rewrite Hlen; lia|].
    intros r Hr. rewrite firstn_all2 by (rewrite Hnames; lia).
    apply combinations_2_cover; [rewrite Hnames; lia|].
    apply alg_names_In. exists r. split; [exact Hr | reflexivity].
Qed.

Lemma C4_posthoc_pairs_of_first_four_witness :
  length (combinations 2
            (firstn 4 (combine (alg_names_of Examples.four_algorithms)
                               (alg_vals_of ndcg Examples.four_algorithms)))) = 6.
Proof.
  refine (proj1 (proj2 (C4_posthoc_pairs_of_first_four
                          Examples.friedman_difference (Examples.wilcoxon_with 0.5)
                          (ndcg_section Examples.friedman_difference (Examples.wilcoxon_with 0.5))
                                                    ndcg Examples.four_algorithms 12 0.001 _ _ _ _))).
  - right. left. reflexivity.
  - vm_compute. lia.
  - reflexivity.
  - reflexivity.
Defined.

(** C7, as stated, fails with three algorithms: the Friedman cell does not
    accept them, and what it raises is the [IndexError] of [alg_vals[3]],
    before the test is called. *)
Lemma C7_counterexample_three_algorithms :
  n_algorithms Examples.three_algorithms = 3 /\
  friedman_cell Examples.friedman_difference precision Examples.three_algorithms =
    ([], Raise IndexError).
Proof. split; reflexivity. Qed.

(** C7 (amended): the Friedman cell passes exactly the first four score
    vectors to the test.  It stops with [IndexError], before the test is
    called, precisely when fewer than four algorithms are present; with four
    or more it calls the test once on the first four vectors and its outcome
    is the outcome of the test. *)
Theorem C7_friedman_cell_needs_four :
  forall F (metric : MetricRow -> float) (results : list MetricRow),
    (friedman_cell F metric results = ([], Raise IndexError) <-> n_algorithms results < 4) /\
    (4 <= n_algorithms results ->
     filter is_friedman_call (trace (friedman_cell F metric results)) =
       [Called_friedmanchisquare (firstn 4 (alg_vals_of metric results))] /\
     outcome (friedman_cell F metric results) =
       match F (firstn 4 (alg_vals_of metric results)) with
       | Ok (s, pv) => Ok {| alg_vals := alg_vals_of metric results;
                             alg_names := alg_names_of results;
                             stat := s; p := pv |}
       | Raise e => Raise e
       end).
Proof.
  intros F metric results.
  assert (Hfour : 4 <= n_algorithms results ->
            friedman_cell F metric results =
            match F (firstn 4 (alg_vals_of metric results)) with
            | Ok (s, pv) =>
                ([Called_friedmanchisquare (firstn 4 (alg_vals_of metric results));
                  Printed_omnibus s pv],
                 Ok {| alg_vals := alg_vals_of metric results;
                       alg_names := alg_names_of results; stat := s; p := pv |})
            | Raise e =>
                ([Called_friedmanchisquare (firstn 4 (alg_vals_of metric results))], Raise e)
            end).
  { intros Hn. rewrite friedman_cell_four by exact Hn.
    rewrite call_friedmanchisquare_eq.
    destruct (F _) as [[s pv]|e]; reflexivity. }
  split; [split|].
  - intros H. destruct (Nat.lt_ge_cases (n_algorithms results) 4) as [Hlt|Hge]; [exact Hlt|].
    rewrite (Hfour Hge) in H. destruct (F _) as [[s pv]|e]; discriminate H.
  - apply friedman_cell_too_few.
  - intros Hn. rewrite (Hfour Hn).
    destruct (F _) as [[s pv]|e]; split; reflexivity.
Qed.

(** C8, as stated, fails with a single algorithm: the stage is no no-op, the
    run stops with [IndexError] in the first Friedman cell. *)
Lemma C8_counterexample_single_algorithm :
  n_algorithms Examples.one_algorithm = 1 /\
  significance_stage Examples.friedman_no_difference (Examples.wilcoxon_with 0.5)
    Examples.one_algorithm = ([], Raise IndexError).
Proof. split; reflexivity. Qed.

(** C8 (amended): when fewer than two algorithms are present the
    significance-testing stage performs no comparison: no test is called and
    nothing is printed; it stops with the [IndexError] of the first Friedman
    cell. *)
Theorem C8_too_few_algorithms_stop_the_stage :
  forall F W (results : list MetricRow),
    n_algorithms results < 2 ->
    significance_stage F W results = ([], Raise IndexError).
Proof.
  intros F W results Hn. unfold significance_stage, precision_section.
  rewrite friedman_cell_too_few by lia. reflexivity.
Qed.

Lemma C8_too_few_algorithms_stop_the_stage_witness :
  n_algorithms [] < 2 /\
  significance_stage Examples.friedman_difference (Examples.wilcoxon_with 0.5) [] =
    ([], Raise IndexError).
Proof.
  assert (H : n_algorithms [] < 2) by (vm_compute; lia).
  split; [exact H|].
  exact (C8_too_few_algorithms_stop_the_stage
           Examples.friedman_difference (Examples.wilcoxon_with 0.5) [] H).
Defined.

(** C10: the [wilcox_bonf] functions of the precision, ndcg and recip_rank
    sections are extensionally equal, with equal [n_compare] lists behind
    their thresholds: on the same score vectors and pair label they call the
    same test and return the same record.  The three sections differ only in
    the metric column their Friedman cell reads. *)
Theorem C10_wilcox_bonf_definitions_agree :
  forall W (data1 data2 : list float) (alg_pair : string * string),
    wilcox_bonf_ndcg W data1 data2 alg_pair = wilcox_bonf_precision W data1 data2 alg_pair /\
    wilcox_bonf_recip_rank W data1 data2 alg_pair = wilcox_bonf_precision W data1 data2 alg_pair /\
    n_compare_ndcg = n_compare_precision /\
    n_compare_recip_rank = n_compare_precision /\
    (forall F results,
       precision_section F W results =
         (g <- friedman_cell F precision results ;;
          posthoc_loop n_compare_precision (wilcox_bonf_precision W) g) /\
       ndcg_section F W results =
         (g <- friedman_cell F ndcg results ;;
          posthoc_loop n_compare_precision (wilcox_bonf_precision W) g) /\
       recip_rank_section F W results =
         (g <- friedman_cell F recip_rank results ;;
          posthoc_loop n_compare_precision (wilcox_bonf_precision W) g)).
Proof.
  intros W data1 data2 alg_pair.
  unfold wilcox_bonf_ndcg, wilcox_bonf_recip_rank, wilcox_bonf_precision,
    n_compare_ndcg, n_compare_recip_rank, n_compare_precision.
  repeat split.
Qed.

(* ------------------------------------------------------------------ *)
(** ** The input loader                                                *)
(* ------------------------------------------------------------------ *)

Section LoaderFacts.

Variable read_csv : string -> result DataFrame.

Lemma split_not_nil (sep : ascii) (s : string) : split sep s <> [].
Proof.
  destruct s as [|c s]; simpl; [discriminate|].
  destruct (Ascii.eqb c sep); [discriminate|].
  destruct (split sep s); discriminate.
Qed.

Lemma prefix_cons (a b : ascii) (s1 s2 : string) :
  String.prefix (String a s1) (String b s2) =
  if ascii_dec a b then String.prefix s1 s2 else false.
Proof. reflexivity. Qed.

(** The name of a matched folder splits into two parts at least. *)
Lemma split_matched_name (dataset n : string) :
  String.prefix (dataset ++ "-") n = true ->
  exists a b rest, split dash n = a :: b :: rest.
Proof.
  revert n. induction dataset as [|c d IH]; intros n H.
  - destruct n as [|c' n']; [discriminate H|].
    change ("" ++ "-")%string with (String dash EmptyString) in H.
    rewrite prefix_cons in H.
    destruct (ascii_dec dash c') as [E|]; [subst c'|discriminate H].
    cbn [split]. rewrite Ascii.eqb_refl.
    pose proof (split_not_nil dash n') as Hne.
    destruct (split dash n') as [|b rest]; [contradiction|].
    exists EmptyString, b, rest. reflexivity.
  - destruct n as [|c' n']; [discriminate H|].
    change (String c d ++ "-")%string with (String c (d ++ "-")) in H.
    rewrite prefix_cons in H.
    destruct (ascii_dec c c') as [E|]; [subst c'|discriminate H].
    destruct (IH n' H) as (a & b & rest & E). cbn [split]. rewrite E.
    destruct (Ascii.eqb c dash).
    + exists EmptyString, a, (b :: rest). reflexivity.
    + exists (String c a), b, rest. reflexivity.
Qed.



(** Reading a file of a matched folder fails only when the parser does. *)
Lemma read_tagged_matched (dataset : string) (fld : Folder) (acc : list DataFrame)
    (file : File) :
  matched dataset fld ->
  exists tag : DataFrame -> DataFrame,
    read_tagged read_csv fld acc file =
    rbind (read_csv (content file)) (fun rec => Ok (acc ++ [tag rec])).
Proof.
  intros H. destruct (split_matched_name dataset (name fld) H) as (a & b & rest & E).
  exists (fun rec => assign "algorithm" (Str b) (assign "dataset" (Str a) rec)).
  unfold read_tagged. rewrite E. reflexivity.
Qed.

Lemma forallb_false_In {A} (f : A -> bool) (l : list A) :
  forallb f l = false -> exists x, In x l /\ f x = false.
Proof.
  induction l as [|x l IH]; simpl; [discriminate|].
  destruct (f x) eqn:E; simpl; intros H.
  - destruct (IH H) as (y & Hy & Hf). exists y. auto.
  - exists x. auto.
Qed.

Lemma inner_loop (dataset : string) (fld : Folder) (fs : list File) :
  matched dataset fld ->
  reads_all (foldM (read_tagged read_csv fld) fs) fs (forallb (parses read_csv) fs).
Proof.
  intros Hm. induction fs as [|f fs IH]; intros acc.
  - simpl. exists []. rewrite app_nil_r. split; reflexivity.
  - cbn [foldM forallb].
    destruct (read_tagged_matched dataset fld acc f Hm) as (tag & ->).
    unfold parses at 1. destruct (read_csv (content f)) as [rec|e]; cbn [rbind andb].
    + specialize (IH (acc ++ [tag rec])).
      destruct (forallb (parses read_csv) fs).
      * destruct IH as (frames & -> & Hlen). exists (tag rec :: frames).
        rewrite <- app_assoc. split; [reflexivity | simpl; congruence].
      * exact IH.
    + reflexivity.
Qed.

Lemma outer_loop (pre dataset : string) (ds : list Folder) :
  Forall (matched dataset) ds ->
  reads_all
    (foldM (fun acc fld => foldM (read_tagged read_csv fld) (glob_prefix pre fld) acc) ds)
    (flat_map (glob_prefix pre) ds)
    (forallb (parses read_csv) (flat_map (glob_prefix pre) ds)).
Proof.
  induction 1 as [|fld ds Hm Hds IH]; intros acc.
  - simpl. exists []. rewrite app_nil_r. split; reflexivity.
  - cbn [foldM flat_map]. rewrite forallb_app.
    pose proof (inner_loop dataset fld (glob_prefix pre fld) Hm acc) as Hin.
    destruct (forallb (parses read_csv) (glob_prefix pre fld)); cbn [andb].
    + destruct Hin as (frames & -> & Hlen). cbn [rbind].
      specialize (IH (acc ++ frames)).
      destruct (forallb (parses read_csv) (flat_map (glob_prefix pre) ds)).
      * destruct IH as (frames' & -> & Hlen'). exists (frames ++ frames').
        rewrite <- app_assoc, !length_app. split; [reflexivity | congruence].
      * exact IH.
    + destruct (foldM _ _ acc); [discriminate Hin | reflexivity].
Qed.

Lemma dirs_matched (dataset : string) (output_root : list Folder) :
  Forall (matched dataset) (dirs dataset output_root).
Proof.
  apply Forall_forall. intros fld H. apply filter_In in H. exact (proj2 H).
Qed.

(** A load raises exactly when it reads no file at all or the parser
    raises on one of the files it reads; with no file it is the
    [ValueError] of [pd.concat]. *)
Lemma load_raises_iff (pre dataset : string) (output_root : list Folder) :
  (is_raise (rbind (read_all read_csv pre (dirs dataset output_root)) concat) = true <->
   (matched_files pre dataset output_root = [] \/
    exists f, In f (matched_files pre dataset output_root) /\ parses read_csv f = false)) /\
  (matched_files pre dataset output_root = [] ->
   rbind (read_all read_csv pre (dirs dataset output_root)) concat = Raise ValueError).
Proof.
  pose proof (outer_loop pre dataset _ (dirs_matched dataset output_root) []) as H.
  unfold read_all, matched_files in *.
  set (fs := flat_map (glob_prefix pre) (dirs dataset output_root)) in *.
  destruct (forallb (parses read_csv) fs) eqn:Hall.
  - destruct H as (frames & -> & Hlen). cbn [rbind app].
    split; [split|].
    + intros Hr. left. destruct frames; [|discriminate Hr].
      destruct fs; [reflexivity | discriminate Hlen].
    + intros [Hnil | (f & Hf & Hp)].
      * rewrite Hnil in Hlen. destruct frames; [reflexivity | discriminate Hlen].
      * rewrite forallb_forall in Hall. rewrite (Hall f Hf) in Hp. discriminate Hp.
    + intros Hnil. rewrite Hnil in Hlen. destruct frames; [reflexivity | discriminate Hlen].
  - split; [split|].
    + intros _. right. apply forallb_false_In. exact Hall.
    + intros _. destruct (foldM _ _ []); [discriminate H | reflexivity].
    + intros Hnil. rewrite Hnil in Hall. discriminate Hall.
Qed.

End LoaderFacts.

(** C6, as stated, fails: of the two matched folders of the dataset one
    holds no recommendation file, and the load succeeds with the rows of the
    other alone; and a file without a [user] column loads as well. *)
Lemma C6_counterexample_empty_folder_skipped :
  map (fun fld => (name fld, length (glob_prefix "recs-" fld)))
      (dirs "ml100k" Examples.output_root) = [("ml100k-ALS", 1); ("ml100k-Pop", 0)] /\
  load_recs Examples.read_csv_stub "ml100k" Examples.output_root =
    Ok {| columns := ["user"; "item"; "score"; "dataset"; "algorithm"];
          rows := [[("user", Int 1); ("item", Int 10); ("score", Num 4.5);
                    ("dataset", Str "ml100k"); ("algorithm", Str "ALS")]] |} /\
  load_recs Examples.read_csv_stub "ml100k" Examples.output_root_no_user =
    Ok {| columns := ["item"; "score"; "dataset"; "algorithm"];
          rows := [[("item", Int 10); ("score", Num 4.5);
                    ("dataset", Str "ml100k"); ("algorithm", Str "ALS")]] |}.
Proof. repeat split. Qed.

(** C6 (amended): loading the recommendations, and likewise the predictions,
    fails exactly when no file at all matches the pattern in the matched
    folders of the dataset, in particular when no folder matches, which is
    the [ValueError] of the concatenation, or when the parser raises on one
    of the matching files.  A matched folder without a matching file is
    passed over when another folder has one, and no column is required of a
    parsed file. *)
Theorem C6_load_fails_iff :
  forall read_csv (dataset : string) (output_root : list Folder),
    (is_raise (load_recs read_csv dataset output_root) = true <->
     (matched_files "recs-" dataset output_root = [] \/
      exists f, In f (matched_files "recs-" dataset output_root) /\
                parses read_csv f = false)) /\
    (matched_files "recs-" dataset output_root = [] ->
     load_recs read_csv dataset output_root = Raise ValueError) /\
    (is_raise (load_preds read_csv dataset output_root) = true <->
     (matched_files "pred-" dataset output_root = [] \/
      exists f, In f (matched_files "pred-" dataset output_root) /\
                parses read_csv f = false)) /\
    (matched_files "pred-" dataset output_root = [] ->
     load_preds read_csv dataset output_root = Raise ValueError).
Proof.
  intros read_csv dataset output_root.
  pose proof (load_raises_iff read_csv "recs-" dataset output_root) as [Hr Hr0].
  pose proof (load_raises_iff read_csv "pred-" dataset output_root) as [Hp Hp0].
  unfold load_recs, load_preds. repeat split; tauto.
Qed.

(* ------------------------------------------------------------------ *)
(** ** Prediction RMSE                                                 *)
(* ------------------------------------------------------------------ *)

Section RMSEFacts.

Variable rmse : list cell -> list cell -> result float.
























End RMSEFacts.




(* ------------------------------------------------------------------ *)
(** ** The metric table and its fill step                              *)
(* ------------------------------------------------------------------ *)

Section EvaluatorFacts.

Variable mp mr mn : list RecommendationRecord -> list GroundTruthRecord -> result float.





Lemma filter_none {A} (f : A -> bool) (l : list A) :
  (forall x, In x l -> f x = false) -> filter f l = [].
Proof.
  induction l as [|x l IH]; intros H; [reflexivity|].
  cbn [filter]. rewrite (H x (or_introl eq_refl)). apply IH.
  intros y Hy. apply H. right. exact Hy.
Qed.











End EvaluatorFacts.



(** C9, as stated, fails in its last part: Pop has no recommendations for
    user 2, who has two ground-truth items, and the filled table reports a
    ground-truth-item count of 2 for the pair, not 0. *)
Lemma C9_counterexample_ntruth_kept :
  has_recs Examples.recs "Pop" 2 = false /\
  length (user_truth Examples.truth 2) = 2 /\
  rbind (results Examples.hit_share Examples.hit_share Examples.hit_share
           Examples.recs Examples.truth)
        (fun tbl => Ok (rows_of tbl "Pop" 2)) =
    Ok [ {| algorithm := "Pop"; user := 2; precision := 0; recip_rank := 0; ndcg := 0;
            nrecs := 0; ntruth := 2 |} ].
Proof. repeat split. Qed.

(** C9 (amended): the fill step replaces every missing value in every value
    column of the metric table with 0, the bookkeeping columns nrecs and
    ntruth included, and changes nothing else: the table keeps its rows and
    their keys, and a value that is not missing stays as it is.  So the final
    table has no missing value in any column. *)
Theorem C9_fillna_fills_every_column :
  forall (df : list MetricRow),
    length (fillna0 df) = length df /\
    (forall r', In r' (fillna0 df) ->
       forall x, In x (value_cells r') -> PrimFloat.is_nan x = false) /\
    (forall i r, nth_error df i = Some r ->
       exists r', nth_error (fillna0 df) i = Some r' /\
         algorithm r' = algorithm r /\ user r' = user r /\
         forall col, In col [precision; recip_rank; ndcg; nrecs; ntruth] ->
           col r' = if PrimFloat.is_nan (col r) then 0%float else col r).
Proof.
  intros df. unfold fillna0. split; [apply length_map|]. split.
  - intros r' Hr' x Hx. apply in_map_iff in Hr' as (r & <- & _).
    cbn [value_cells fillna0_row precision recip_rank ndcg nrecs ntruth] in Hx.
    repeat (destruct Hx as [<-|Hx]; [apply fillna_cell_not_nan|]). contradiction.
  - intros i r Hi. exists (fillna0_row r). split; [apply map_nth_error, Hi|].
    split; [reflexivity|]. split; [reflexivity|].
    intros col Hcol.
    repeat (destruct Hcol as [<-|Hcol]; [reflexivity|]). contradiction.
Qed.

(* ================================================================== *)
(** * Further properties of the cells                                  *)
(* ================================================================== *)

(* ------------------------------------------------------------------ *)
(** ** Folder names                                                    *)
(* ------------------------------------------------------------------ *)

Section SplitFacts.

Variable sep : ascii.

Lemma join_cons_nonempty (w : string) (ws : list string) :
  ws <> [] -> join sep (w :: ws) = (w ++ String sep (join sep ws))%string.
Proof. destruct ws; [contradiction | reflexivity]. Qed.

Lemma split_join (s : string) : join sep (split sep s) = s.
Proof.
  induction s as [|c s IH]; [reflexivity|].
  cbn [split]. destruct (Ascii.eqb_spec c sep) as [->|Hne].
  - rewrite join_cons_nonempty by apply split_not_nil. rewrite IH. reflexivity.
  - pose proof (split_not_nil sep s) as Hnil.
    destruct (split sep s) as [|w ws]; [contradiction|].
    destruct ws as [|w' ws].
    + cbn [join] in *. rewrite IH. reflexivity.
    + rewrite join_cons_nonempty by discriminate.
      rewrite join_cons_nonempty in IH by discriminate.
      cbn [append]. rewrite IH. reflexivity.
Qed.

Lemma split_parts_free (s : string) :
  Forall (fun w => has_char sep w = false) (split sep s).
Proof.
  induction s as [|c s IH]; cbn [split].
  - constructor; [reflexivity | constructor].
  - destruct (Ascii.eqb c sep) eqn:E.
    + constructor; [reflexivity | exact IH].
    + pose proof (split_not_nil sep s) as Hnil.
      destruct (split sep s) as [|w ws]; [contradiction|].
      inversion IH as [|? ? Hw Hws]; subst.
      constructor; [|exact Hws]. cbn [has_char]. rewrite E, Hw. reflexivity.
Qed.

Lemma split_length (s : string) : length (split sep s) = S (count_char sep s).
Proof.
  induction s as [|c s IH]; [reflexivity|].
  cbn [split count_char]. destruct (Ascii.eqb c sep).
  - cbn [length]. rewrite IH. reflexivity.
  - pose proof (split_not_nil sep s) as Hnil.
    destruct (split sep s) as [|w ws]; [contradiction|].
    cbn [length] in *. rewrite IH. reflexivity.
Qed.

Lemma split_free (s : string) : has_char sep s = false -> split sep s = [s].
Proof.
  induction s as [|c s IH]; [reflexivity|].
  cbn [has_char split]. destruct (Ascii.eqb c sep); [discriminate|].
  cbn [orb]. intros H. rewrite (IH H). reflexivity.
Qed.

Lemma has_char_count (s : string) : has_char sep s = true -> 1 <= count_char sep s.
Proof.
  induction s as [|c s IH]; [discriminate|].
  cbn [has_char count_char]. destruct (Ascii.eqb c sep); cbn [orb]; [lia|].
  intros H. specialize (IH H). lia.
Qed.

(** Splitting at a separator splits the parts on either side of it. *)
Lemma split_app (s1 s2 : string) :
  split sep (s1 ++ String sep s2) = split sep s1 ++ split sep s2.
Proof.
  induction s1 as [|c s1 IH].
  - cbn [append split]. rewrite Ascii.eqb_refl. reflexivity.
  - cbn [append split]. rewrite IH.
    destruct (Ascii.eqb c sep); [reflexivity|].
    pose proof (split_not_nil sep s1) as Hnil.
    destruct (split sep s1) as [|w ws]; [contradiction | reflexivity].
Qed.

End SplitFacts.

Lemma prefix_app (pre n : string) :
  String.prefix pre n = true -> exists rest, n = (pre ++ rest)%string.
Proof.
  revert n. induction pre as [|c pre IH]; intros n H.
  - exists n. reflexivity.
  - destruct n as [|c' n]; [discriminate H|].
    rewrite prefix_cons in H. destruct (ascii_dec c c') as [<-|]; [|discriminate H].
    destruct (IH n H) as (rest & ->). exists rest. reflexivity.
Qed.

Lemma append_assoc (a b c : string) : ((a ++ b) ++ c)%string = (a ++ (b ++ c))%string.
Proof. induction a as [|x a IH]; [reflexivity|]. cbn [append]. rewrite IH. reflexivity. Qed.

(** The name of a matched folder splits into the parts of the dataset name
    followed by the parts of what comes after the dash. *)
Lemma split_matched (dataset : string) (fld : Folder) :
  matched dataset fld ->
  exists rest, name fld = (dataset ++ String dash rest)%string /\
               split dash (name fld) = split dash dataset ++ split dash rest.
Proof.
  intros H. apply prefix_app in H as (rest & E). exists rest.
  rewrite append_assoc in E. cbn [append] in E. split; [exact E|].
  rewrite E. apply split_app.
Qed.

(** X12: splitting a name at the dashes and joining the parts with dashes
    gives the name back; no part holds a dash, and there is one part more
    than there are dashes. *)
Theorem X12_split_join_round_trip :
  forall (s : string),
    join dash (split dash s) = s /\
    Forall (fun w => has_char dash w = false) (split dash s) /\
    length (split dash s) = S (count_char dash s).
Proof.
  intros s. split; [apply split_join|]. split; [apply split_parts_free | apply split_length].
Qed.

(** X2: the labels a matched folder gives its rows, for a dataset name that
    is a plain name: one without [*], [?], [[] and [/], which the pattern
    reads literally, so that the matched folders are those whose name starts
    with the dataset name and a dash.  When the dataset name holds no dash,
    the dataset label is the dataset name and the algorithm label is the
    part of the folder name up to the next dash.  When the dataset name
    holds a dash, both labels are parts of the dataset name itself: every
    folder of the dataset gets the same algorithm label. *)
Theorem X2_labels_of_matched_folder :
  forall (dataset : string) (fld : Folder),
    plain_name dataset = true ->
    matched dataset fld ->
    (has_char dash dataset = false ->
     exists alg rest, split dash (name fld) = dataset :: alg :: rest /\
                      has_char dash alg = false) /\
    (has_char dash dataset = true ->
     exists d a more rest,
       split dash dataset = d :: a :: more /\
       split dash (name fld) = d :: a :: more ++ rest).
Proof.
  intros dataset fld _ H. destruct (split_matched dataset fld H) as (rest & _ & E).
  split; intros Hd.
  - rewrite (split_free dash dataset Hd) in E.
    pose proof (split_not_nil dash rest) as Hnil.
    pose proof (split_parts_free dash rest) as Hfree.
    destruct (split dash rest) as [|alg more]; [contradiction|].
    exists alg, more. split; [exact E|]. inversion Hfree; assumption.
  - pose proof (split_length dash dataset) as Hlen.
    pose proof (has_char_count dash dataset Hd) as Hc.
    destruct (split dash dataset) as [|d [|a more]]; cbn [length] in Hlen; try lia.
    exists d, a, more, (split dash rest). split; [reflexivity | exact E].
Qed.

Lemma X2_labels_of_matched_folder_witness :
  exists d a more rest,
    split dash "ml-100k" = d :: a :: more /\
    split dash "ml-100k-ALS" = d :: a :: more ++ rest.
Proof.
  refine (proj2 (X2_labels_of_matched_folder "ml-100k"
                   {| name := "ml-100k-ALS"; files := [] |} _ _) _); reflexivity.
Defined.

(* ------------------------------------------------------------------ *)
(** ** What a load returns                                             *)
(* ------------------------------------------------------------------ *)

Section FrameFacts.

Lemma get_set_same (c : string) (v : cell) (r : row) : get c (set c v r) = v.
Proof.
  unfold get. induction r as [|[c' v'] r IH]; cbn [set lookup].
  - rewrite String.eqb_refl. reflexivity.
  - destruct (String.eqb c c') eqn:E; cbn [lookup].
    + rewrite String.eqb_refl. reflexivity.
    + rewrite E. exact IH.
Qed.

Lemma get_set_other (c c' : string) (v : cell) (r : row) :
  c <> c' -> get c (set c' v r) = get c r.
Proof.
  intros Hne. unfold get. induction r as [|[k w] r IH]; cbn [set lookup].
  - rewrite (proj2 (String.eqb_neq c c') Hne). reflexivity.
  - destruct (String.eqb c' k) eqn:E; cbn [lookup].
    + apply String.eqb_eq in E. subst k.
      rewrite (proj2 (String.eqb_neq c c') Hne). reflexivity.
    + destruct (String.eqb c k); [reflexivity | exact IH].
Qed.

Lemma has_column_In (c : string) (df : DataFrame) :
  has_column c df = true <-> In c (columns df).
Proof.
  unfold has_column. rewrite existsb_exists. split.
  - intros (x & Hx & E). apply String.eqb_eq in E. subst x. exact Hx.
  - intros H. exists c. split; [exact H | apply String.eqb_refl].
Qed.

Lemma assign_columns (c c' : string) (v : cell) (df : DataFrame) :
  In c (columns (assign c' v df)) <-> c = c' \/ In c (columns df).
Proof.
  unfold assign. cbn [columns]. destruct (has_column c' df) eqn:E.
  - apply has_column_In in E. split; [auto | intros [->|H]; assumption].
  - rewrite in_app_iff. simpl. intuition.
Qed.

Lemma add_columns_In (c : string) (seen new : list string) :
  In c (add_columns seen new) <-> In c seen \/ In c new.
Proof.
  unfold add_columns. rewrite in_app_iff, filter_In, nodup_In. split.
  - intros [H|[H _]]; auto.
  - intros [H|H]; [left; exact H|].
    destruct (existsb (String.eqb c) seen) eqn:E.
    + left. apply existsb_exists in E as (x & Hx & Ex).
      apply String.eqb_eq in Ex. subst x. exact Hx.
    + right. split; [exact H | reflexivity].
Qed.

Lemma concat_columns_In (c : string) (frames : list DataFrame) (seen : list string) :
  In c (fold_left (fun seen df => add_columns seen (columns df)) frames seen) <->
  In c seen \/ exists fr, In fr frames /\ In c (columns fr).
Proof.
  revert seen. induction frames as [|fr frames IH]; intros seen; cbn [fold_left].
  - split; [auto | intros [H|(fr & [] & _)]; exact H].
  - rewrite IH, add_columns_In. split.
    + intros [[H|H]|(fr' & Hfr & H)]; [left; exact H | right; exists fr; simpl; auto |].
      right. exists fr'. simpl. auto.
    + intros [H|(fr' & [->|Hfr] & H)]; [left; left; exact H | left; right; exact H |].
      right. exists fr'. auto.
Qed.

(** A concatenation has the rows of its frames, in order, and the columns
    of all of them. *)
Lemma concat_Ok (frames : list DataFrame) (df : DataFrame) :
  concat frames = Ok df ->
  frames <> [] /\ rows df = flat_map rows frames /\
  forall c, In c (columns df) <-> exists fr, In fr frames /\ In c (columns fr).
Proof.
  destruct frames as [|fr frames]; [discriminate|].
  intros H. injection H as <-. split; [discriminate|]. split; [reflexivity|].
  intros c. cbn [columns]. rewrite concat_columns_In, add_columns_In. split.
  - intros [[[]|H]|(fr0 & Hfr0 & H)].
    + exists fr. split; [left; reflexivity | exact H].
    + exists fr0. split; [right; exact Hfr0 | exact H].
  - intros (fr0 & [<-|Hfr0] & H); [left; right; exact H|].
    right. exists fr0. split; assumption.
Qed.

End FrameFacts.

Section LoadedFrames.

Variable read_csv : string -> result DataFrame.

Lemma inner_loop_tagged (pre dataset : string) (ds : list Folder) (fld : Folder)
    (fs : list File) :
  In fld ds -> incl fs (glob_prefix pre fld) ->
  forall acc frames,
    Forall (tagged_frame read_csv pre ds) acc ->
    foldM (read_tagged read_csv fld) fs acc = Ok frames ->
    Forall (tagged_frame read_csv pre ds) frames.
Proof.
  intros Hfld. induction fs as [|f fs IH]; intros Hincl acc frames Hacc H.
  - injection H as <-. exact Hacc.
  - cbn [foldM] in H. unfold read_tagged at 1 in H.
    destruct (read_csv (content f)) as [rec|e] eqn:Hrec; [|discriminate H].
    cbn [rbind] in H.
    destruct (split dash (name fld)) as [|d [|a rest]] eqn:Hsplit;
      try discriminate H.
    cbn [index nth_error rbind] in H.
    apply (IH (fun x Hx => Hincl x (or_intror Hx)) _ _) in H; [exact H|].
    apply Forall_app. split; [exact Hacc|]. constructor; [|constructor].
    exists fld, f, rec, d, a, rest. repeat split; auto.
    apply Hincl. left. reflexivity.
Qed.

Lemma outer_loop_tagged (pre dataset : string) (ds sub : list Folder) :
  incl sub ds ->
  forall acc frames,
    Forall (tagged_frame read_csv pre ds) acc ->
    foldM (fun acc fld => foldM (read_tagged read_csv fld) (glob_prefix pre fld) acc)
          sub acc = Ok frames ->
    Forall (tagged_frame read_csv pre ds) frames.
Proof.
  induction sub as [|fld sub IH]; intros Hincl acc frames Hacc H.
  - injection H as <-. exact Hacc.
  - cbn [foldM] in H.
    destruct (foldM (read_tagged read_csv fld) (glob_prefix pre fld) acc)
      as [mid|e] eqn:Hmid; [|discriminate H].
    cbn [rbind] in H.
    apply (IH (fun x Hx => Hincl x (or_intror Hx)) mid frames); [|exact H].
    apply (inner_loop_tagged pre dataset ds fld (glob_prefix pre fld)) with (acc := acc);
      auto.
    + apply Hincl. left. reflexivity.
    + intros x Hx. exact Hx.
Qed.

(** The table of a load that succeeds has the two label columns, and each
    of its rows is a row of a parsed file of a matched folder, labelled with
    the first two parts of the name of that folder. *)
Lemma loaded_rows (pre dataset : string) (output_root : list Folder) (df : DataFrame) :
  rbind (read_all read_csv pre (dirs dataset output_root)) concat = Ok df ->
  has_column "dataset" df = true /\ has_column "algorithm" df = true /\
  forall r, In r (rows df) ->
    exists fld file rec r0 d a rest,
      In fld (dirs dataset output_root) /\ In file (glob_prefix pre fld) /\
      read_csv (content file) = Ok rec /\ In r0 (rows rec) /\
      split dash (name fld) = d :: a :: rest /\
      r = set "algorithm" (Str a) (set "dataset" (Str d) r0) /\
      get "dataset" r = Str d /\ get "algorithm" r = Str a.
Proof.
  intros H. unfold read_all in H.
  destruct (foldM _ (dirs dataset output_root) []) as [frames|e] eqn:Hf; [|discriminate H].
  cbn [rbind] in H.
  pose proof (outer_loop_tagged pre dataset (dirs dataset output_root)
                (dirs dataset output_root) (fun x Hx => Hx) [] frames
                (Forall_nil _) Hf) as Htag.
  destruct (concat_Ok frames df H) as (Hne & Hrows & Hcols).
  rewrite Forall_forall in Htag.
  assert (Hboth : forall c, c = "dataset" \/ c = "algorithm" -> has_column c df = true).
  { intros c Hc. apply has_column_In, Hcols.
    destruct frames as [|fr frames]; [contradiction|]. exists fr. split; [left; reflexivity|].
    destruct (Htag fr (or_introl eq_refl)) as (fld & file & rec & d & a & rest & _ & _ & _ & _ & ->).
    rewrite !assign_columns. destruct Hc as [->| ->]; auto. }
  split; [apply Hboth; auto|]. split; [apply Hboth; auto|].
  intros r Hr. rewrite Hrows in Hr. apply in_flat_map in Hr as (fr & Hfr & Hr).
  destruct (Htag fr Hfr) as (fld & file & rec & d & a & rest & H1 & H2 & H3 & H4 & ->).
  unfold assign in Hr. cbn [rows] in Hr.
  apply in_map_iff in Hr as (r1 & <- & Hr1). apply in_map_iff in Hr1 as (r0 & <- & Hr0).
  exists fld, file, rec, r0, d, a, rest. repeat split; auto.
  - rewrite get_set_other by discriminate. apply get_set_same.
  - apply get_set_same.
Qed.

(** The test cell: every matching file is read, in order. *)
Lemma test_loop (fs : list File) (acc : list DataFrame) :
  (forallb (parses read_csv) fs = true ->
   foldM (fun acc file => rbind (read_csv (content file)) (fun t => Ok (acc ++ [t]))) fs acc =
   Ok (acc ++ parsed_frames read_csv fs)) /\
  (forallb (parses read_csv) fs = false ->
   is_raise (foldM (fun acc file => rbind (read_csv (content file))
                                          (fun t => Ok (acc ++ [t]))) fs acc) = true).
Proof.
  revert acc. induction fs as [|f fs IH]; intros acc.
  - split; [|discriminate]. intros _. cbn. rewrite app_nil_r. reflexivity.
  - cbn [foldM forallb parsed_frames flat_map]. unfold parses at 1 3.
    destruct (read_csv (content f)) as [t|e]; cbn [rbind andb].
    + destruct (IH (acc ++ [t])) as [IH1 IH2]. split.
      * intros H. rewrite (IH1 H), <- app_assoc. reflexivity.
      * exact IH2.
    + split; [discriminate | reflexivity].
Qed.

End LoadedFrames.

(** X1: when loading the recommendations, or the predictions, succeeds, the
    table has a dataset and an algorithm column, and every row of it is a
    row of a file that parsed, found under the pattern in a matched folder,
    with the first part of the folder name as its dataset and the second
    part as its algorithm, whatever the file itself held in these columns. *)
Theorem X1_loaded_rows_are_labelled :
  forall read_csv (dataset : string) (output_root : list Folder) (load : _ -> _ -> _ -> result DataFrame)
         (pre : string) (df : DataFrame),
    In (load, pre) [(load_recs, "recs-"); (load_preds, "pred-")] ->
    load read_csv dataset output_root = Ok df ->
    has_column "dataset" df = true /\ has_column "algorithm" df = true /\
    forall r, In r (rows df) ->
      exists fld file rec r0 d a rest,
        In fld (dirs dataset output_root) /\ In file (glob_prefix pre fld) /\
        read_csv (content file) = Ok rec /\ In r0 (rows rec) /\
        split dash (name fld) = d :: a :: rest /\
        r = set "algorithm" (Str a) (set "dataset" (Str d) r0) /\
        get "dataset" r = Str d /\ get "algorithm" r = Str a.
Proof.
  intros read_csv dataset output_root load pre df Hload H.
  apply (loaded_rows read_csv pre dataset output_root df).
  destruct Hload as [E|[E|[]]]; injection E as <- <-; exact H.
Qed.

Lemma X1_loaded_rows_are_labelled_witness :
  has_column "dataset"
    {| columns := ["user"; "item"; "score"; "dataset"; "algorithm"];
       rows := [[("user", Int 1); ("item", Int 10); ("score", Num 4.5);
                 ("dataset", Str "ml100k"); ("algorithm", Str "ALS")]] |} = true.
Proof.
  refine (proj1 (X1_loaded_rows_are_labelled Examples.read_csv_stub "ml100k"
                   Examples.output_root load_recs "recs-" _ _ _)).
  - left. reflexivity.
  - reflexivity.
Defined.

(** X13: when the dataset name is a plain name (one without [*], [?], [[]
    and [/], which the pattern reads literally) and holds a dash, a load
    that succeeds labels every row with the first part of the dataset name
    as its dataset and the second part as its algorithm: all folders fall
    under one algorithm. *)
Theorem X13_dashed_dataset_one_algorithm :
  forall read_csv (dataset : string) (output_root : list Folder) (df : DataFrame)
         (d a : string) (more : list string),
    plain_name dataset = true ->
    split dash dataset = d :: a :: more ->
    load_recs read_csv dataset output_root = Ok df ->
    forall r, In r (rows df) -> get "dataset" r = Str d /\ get "algorithm" r = Str a.
Proof.
  intros read_csv dataset output_root df d a more _ Hsplit H r Hr.
  destruct (loaded_rows read_csv "recs-" dataset output_root df H) as (_ & _ & Hrows).
  destruct (Hrows r Hr) as (fld & _ & _ & _ & d' & a' & rest & Hfld & _ & _ & _ & Hs & _ & Hd & Ha).
  apply filter_In in Hfld as [_ Hm].
  destruct (split_matched dataset fld Hm) as (tail & _ & E).
  rewrite Hsplit in E. cbn [app] in E. rewrite E in Hs. injection Hs as <- <- _.
  split; assumption.
Qed.

Lemma X13_dashed_dataset_one_algorithm_witness :
  get "dataset" [("user", Int 1); ("item", Int 10); ("score", Num 4.5);
                 ("dataset", Str "ml"); ("algorithm", Str "100k")] = Str "ml" /\
  get "algorithm" [("user", Int 1); ("item", Int 10); ("score", Num 4.5);
                   ("dataset", Str "ml"); ("algorithm", Str "100k")] = Str "100k".
Proof.
  exact (X13_dashed_dataset_one_algorithm Examples.read_csv_stub "ml-100k"
           Samples.dashed_root _ "ml" "100k" [] eq_refl eq_refl eq_refl _
           (or_introl eq_refl)).
Defined.

(** X3: loading the ground truth fails exactly when no file of the split
    directory matches [test-*.csv], which is the [ValueError] of the
    concatenation, or when the parser raises on a matching file; when it
    succeeds, the table holds the rows of all matching files, in file order,
    and files of other names are not read. *)
Theorem X3_load_test :
  forall read_csv (split_dir : list File),
    (is_raise (load_test read_csv split_dir) = true <->
     (test_files split_dir = [] \/
      exists f, In f (test_files split_dir) /\ parses read_csv f = false)) /\
    (test_files split_dir = [] -> load_test read_csv split_dir = Raise ValueError) /\
    (forall df, load_test read_csv split_dir = Ok df ->
       rows df = flat_map rows (parsed_frames read_csv (test_files split_dir)) /\
       length (parsed_frames read_csv (test_files split_dir)) = length (test_files split_dir)).
Proof.
  intros read_csv split_dir. unfold load_test. fold (test_files split_dir).
  destruct (test_loop read_csv (test_files split_dir) []) as [Hok Hbad].
  assert (Hlen : forallb (parses read_csv) (test_files split_dir) = true ->
                 length (parsed_frames read_csv (test_files split_dir)) =
                 length (test_files split_dir)).
  { generalize (test_files split_dir). intros fs. induction fs as [|f fs IH]; [reflexivity|].
    cbn [forallb parsed_frames flat_map]. unfold parses at 1.
    destruct (read_csv (content f)); cbn [andb]; [|discriminate].
    intros H. cbn [app length]. f_equal. apply IH, H. }
  destruct (forallb (parses read_csv) (test_files split_dir)) eqn:Hall.
  - rewrite (Hok eq_refl). cbn [app rbind]. specialize (Hlen eq_refl).
    split; [split|split].
    + intros Hr. left.
      destruct (parsed_frames read_csv (test_files split_dir)); [|discriminate Hr].
      destruct (test_files split_dir); [reflexivity | discriminate Hlen].
    + intros [Hnil|(f & Hf & Hp)].
      * rewrite Hnil. reflexivity.
      * rewrite forallb_forall in Hall. rewrite (Hall f Hf) in Hp. discriminate Hp.
    + intros Hnil. rewrite Hnil. reflexivity.
    + intros df Hdf. split; [|exact Hlen].
      apply concat_Ok in Hdf as (_ & Hrows & _). exact Hrows.
  - specialize (Hbad eq_refl).
    destruct (foldM _ (test_files split_dir) []) as [frames|e]; [discriminate Hbad|].
    cbn [rbind]. split; [split|split].
    + intros _. right. apply forallb_false_In. exact Hall.
    + reflexivity.
    + intros Hnil. rewrite Hnil in Hall. discriminate Hall.
    + intros df Hdf. discriminate Hdf.
Qed.

(* ------------------------------------------------------------------ *)
(** ** The filled table and the chart table                            *)
(* ------------------------------------------------------------------ *)

Lemma fillna0_row_idempotent (r : MetricRow) : fillna0_row (fillna0_row r) = fillna0_row r.
Proof.
  unfold fillna0_row. cbn [algorithm user precision recip_rank ndcg nrecs ntruth].
  unfold fillna_cell at 1 3 5 7 9. rewrite !fillna_cell_not_nan. reflexivity.
Qed.

Lemma stack_row_filled (r : MetricRow) :
  stack_row (fillna0_row r) =
  [ {| plot_algorithm := algorithm r; plot_user := user r;
       plot_metric := "precision"; plot_val := fillna_cell 0 (precision r) |};
    {| plot_algorithm := algorithm r; plot_user := user r;
       plot_metric := "recip_rank"; plot_val := fillna_cell 0 (recip_rank r) |};
    {| plot_algorithm := algorithm r; plot_user := user r;
       plot_metric := "ndcg"; plot_val := fillna_cell 0 (ndcg r) |} ].
Proof.
  unfold stack_row. cbn [flat_map fst snd fillna0_row algorithm user precision recip_rank ndcg].
  rewrite !fillna_cell_not_nan. reflexivity.
Qed.

(** X11: filling twice is filling once. *)
Theorem X11_fillna_idempotent :
  forall (df : list MetricRow), fillna0 (fillna0 df) = fillna0 df.
Proof.
  intros df. unfold fillna0. rewrite map_map. apply map_ext. apply fillna0_row_idempotent.
Qed.

(** X4: the chart table of a filled metric table has three entries for
    every row of the metric table, one for each of precision, recip_rank and
    ndcg, in table order, none dropped; on a table that is not filled, a row
    whose three metric values are missing leaves no entry at all. *)
Theorem X4_chart_table :
  forall (df : list MetricRow),
    length (pltData (fillna0 df)) = 3 * length df /\
    (forall r m, In r df -> In m ["precision"; "recip_rank"; "ndcg"] ->
       exists x, In x (pltData (fillna0 df)) /\
                 plot_algorithm x = algorithm r /\ plot_user x = user r /\
                 plot_metric x = m) /\
    (forall x, In x (pltData (fillna0 df)) -> PrimFloat.is_nan (plot_val x) = false) /\
    (forall r, PrimFloat.is_nan (precision r) = true ->
               PrimFloat.is_nan (recip_rank r) = true ->
               PrimFloat.is_nan (ndcg r) = true -> stack_row r = []).
Proof.
  intros df. split; [|split; [|split]].
  - unfold pltData, fillna0. induction df as [|r df IH]; [reflexivity|].
    cbn [map flat_map]. rewrite length_app, IH, stack_row_filled. simpl length. lia.
  - intros r m Hr Hm. unfold pltData, fillna0.
    assert (Hin : forall x, In x (stack_row (fillna0_row r)) ->
                            In x (flat_map stack_row (map fillna0_row df))).
    { intros x Hx. apply in_flat_map. exists (fillna0_row r). split; [|exact Hx].
      apply in_map. exact Hr. }
    rewrite stack_row_filled in Hin.
    destruct Hm as [<-|[<-|[<-|[]]]]; eexists; (split; [apply Hin|]).
    + left. reflexivity.
    + repeat split.
    + right. left. reflexivity.
    + repeat split.
    + right. right. left. reflexivity.
    + repeat split.
  - intros x Hx. unfold pltData, fillna0 in Hx. apply in_flat_map in Hx as (r' & Hr' & Hx).
    apply in_map_iff in Hr' as (r & <- & _). rewrite stack_row_filled in Hx.
    destruct Hx as [<-|[<-|[<-|[]]]]; apply fillna_cell_not_nan.
  - intros r H1 H2 H3. unfold stack_row. cbn [flat_map fst snd]. rewrite H1, H2, H3. reflexivity.
Qed.

(* ------------------------------------------------------------------ *)
(** ** The groups of the significance cells                            *)
(* ------------------------------------------------------------------ *)

Section GroupFacts.

Lemma filter_unique_key (keys : list string) (a : string) :
  NoDup keys -> In a keys -> length (filter (String.eqb a) keys) = 1.
Proof.
  induction 1 as [|k keys Hk Hnd IH]; intros Hin; [contradiction|].
  cbn [filter]. destruct (String.eqb_spec a k) as [<-|Hne].
  - cbn [length]. f_equal. rewrite filter_none; [reflexivity|].
    intros x Hx. apply String.eqb_neq. intros <-. contradiction.
  - apply IH. destruct Hin as [E|Hin]; [congruence | exact Hin].
Qed.

Lemma groups_length_cons (keys : list string) (r : MetricRow) (df : list MetricRow) :
  length (List.concat (map (fun k => filter (fun x => String.eqb (algorithm x) k) (r :: df)) keys)) =
  length (filter (String.eqb (algorithm r)) keys) +
  length (List.concat (map (fun k => filter (fun x => String.eqb (algorithm x) k) df) keys)).
Proof.
  induction keys as [|k keys IH]; [reflexivity|].
  cbn [map List.concat]. rewrite !length_app, IH.
  cbn [filter]. destruct (String.eqb (algorithm r) k); cbn [length]; lia.
Qed.

(** Grouping by keys that are distinct and cover the table loses no row and
    repeats none. *)
Lemma groups_length (keys : list string) (df : list MetricRow) :
  NoDup keys -> (forall r, In r df -> In (algorithm r) keys) ->
  length (List.concat (map (fun k => filter (fun x => String.eqb (algorithm x) k) df) keys)) =
  length df.
Proof.
  intros Hnd. induction df as [|r df IH]; intros Hcov.
  - clear Hnd Hcov. induction keys as [|k keys IHk]; [reflexivity | exact IHk].
  - rewrite groups_length_cons, filter_unique_key, IH; auto.
    + intros x Hx. apply Hcov. right. exact Hx.
    + apply Hcov. left. reflexivity.
Qed.

Lemma concat_map_length {A B C} (f : B -> C) (h : A -> list B) (l : list A) :
  length (List.concat (map (fun x => map f (h x)) l)) = length (List.concat (map h l)).
Proof.
  induction l as [|x l IH]; [reflexivity|].
  cbn [map List.concat]. rewrite !length_app, length_map, IH. reflexivity.
Qed.

Lemma sorted_app_lt (l1 l2 : list string) (x y : string) :
  StronglySorted key_lt (l1 ++ x :: l2) -> In y l2 -> key_lt x y.
Proof.
  induction l1 as [|z l1 IH]; cbn [app]; intros H Hy.
  - inversion H as [|? ? _ Hall]; subst. rewrite Forall_forall in Hall. exact (Hall y Hy).
  - inversion H; subst. apply IH; assumption.
Qed.

End GroupFacts.

(** X6: the names the Friedman cell collects are the algorithms of the
    metric table, each once, in increasing order of the strings. *)
Theorem X6_alg_names_sorted_distinct :
  forall (results : list MetricRow),
    StronglySorted key_lt (alg_names_of results) /\
    NoDup (alg_names_of results) /\
    (forall a, In a (alg_names_of results) <-> exists r, In r results /\ algorithm r = a).
Proof.
  intros results. split; [|split].
  - rewrite alg_names_of_spec. apply sorted_keys_sorted.
  - apply alg_names_NoDup.
  - apply alg_names_In.
Qed.

(** X5: the score vectors the Friedman cell collects partition the rows of
    the metric table: the vector at the position of a name holds the metric
    of the rows of that algorithm, in table order, no vector is empty, and
    together the vectors have as many values as the table has rows. *)
Theorem X5_score_vectors_partition_rows :
  forall (metric : MetricRow -> float) (results : list MetricRow),
    (forall i a, nth_error (alg_names_of results) i = Some a ->
       nth_error (alg_vals_of metric results) i =
         Some (map metric (filter (fun r => String.eqb (algorithm r) a) results))) /\
    (forall v, In v (alg_vals_of metric results) -> v <> []) /\
    length (List.concat (alg_vals_of metric results)) = length results.
Proof.
  intros metric results. split; [|split].
  - intros i a Hi. unfold alg_names_of, alg_vals_of, groupby_algorithm in *.
    rewrite map_map in *. cbn [fst snd] in *.
    rewrite nth_error_map in Hi |- *.
    destruct (nth_error (sorted_keys String.compare (map algorithm results)) i);
      [|discriminate Hi].
    cbn [option_map] in *. injection Hi as ->. reflexivity.
  - intros v Hv. unfold alg_vals_of, groupby_algorithm in Hv. rewrite map_map in Hv.
    apply in_map_iff in Hv as (k & <- & Hk). cbn [snd].
    apply sorted_keys_In, in_map_iff in Hk as (r & <- & Hr).
    intros E. apply map_eq_nil in E.
    assert (Hin : In r (filter (fun x => String.eqb (algorithm x) (algorithm r)) results)).
    { apply filter_In. split; [exact Hr | apply String.eqb_refl]. }
    rewrite E in Hin. exact Hin.
  - unfold alg_vals_of, groupby_algorithm. rewrite map_map. cbn [snd].
    rewrite (concat_map_length metric
               (fun k => filter (fun r => String.eqb (algorithm r) k) results)).
    apply groups_length.
    + apply sorted_NoDup, sorted_keys_sorted.
    + intros r Hr. apply sorted_keys_In, in_map. exact Hr.
Qed.

(* ------------------------------------------------------------------ *)
(** ** Runs of the significance stage                                  *)
(* ------------------------------------------------------------------ *)

Section TraceFacts.

Lemma trace_bind {A B} (c : M A) (k : A -> M B) :
  trace (bind c k) =
  trace c ++ match outcome c with Ok a => trace (k a) | Raise _ => [] end.
Proof.
  destruct c as [t [a|e]]; cbn [bind trace outcome fst snd].
  - destruct (k a). reflexivity.
  - rewrite app_nil_r. reflexivity.
Qed.

Lemma outcome_bind {A B} (c : M A) (k : A -> M B) :
  outcome (bind c k) =
  match outcome c with Ok a => outcome (k a) | Raise e => Raise e end.
Proof.
  destruct c as [t [a|e]]; cbn [bind trace outcome fst snd]; [|reflexivity].
  destruct (k a). reflexivity.
Qed.

Lemma printed_pairs_app (t1 t2 : list event) :
  printed_pairs (t1 ++ t2) = printed_pairs t1 ++ printed_pairs t2.
Proof.
  induction t1 as [|e t1 IH]; [reflexivity|].
  destruct e; cbn [app printed_pairs]; rewrite IH; reflexivity.
Qed.

Lemma printed_bind {A B} (c : M A) (k : A -> M B) (r : PairwiseTestResult) :
  In r (printed_pairs (trace (bind c k))) ->
  In r (printed_pairs (trace c)) \/
  exists a, outcome c = Ok a /\ In r (printed_pairs (trace (k a))).
Proof.
  rewrite trace_bind, printed_pairs_app, in_app_iff. intros [H|H]; [left; exact H|].
  destruct (outcome c) as [a|e]; [|contradiction]. right. exists a. auto.
Qed.

Lemma printed_for_each {A} (xs : list A) (body : A -> M unit) (r : PairwiseTestResult) :
  In r (printed_pairs (trace (for_each xs body))) ->
  exists x, In x xs /\ In r (printed_pairs (trace (body x))).
Proof.
  induction xs as [|x xs IH]; cbn [for_each]; [contradiction|].
  intros H. apply printed_bind in H as [H|(_ & _ & H)].
  - exists x. split; [left; reflexivity | exact H].
  - destruct (IH H) as (y & Hy & Hr). exists y. split; [right; exact Hy | exact Hr].
Qed.


End TraceFacts.

Section StageFacts.

Variable F : list (list float) -> result (float * float).
Variable W : list float -> list float -> result (float * float).

(** What one comparison of [compare_all_pairs] prints. *)
Lemma printed_comparison (pr : list (string * list float)) (r : PairwiseTestResult) :
  In r (printed_pairs (trace (
    a <- lift (index pr 0) ;;
    b <- lift (index pr 1) ;;
    result <- wilcox_bonf_precision W (snd a) (snd b) (fst a, fst b) ;;
    emit (Printed_pair result)))) ->
  exists a b, nth_error pr 0 = Some a /\ nth_error pr 1 = Some b /\
              Pair r = (fst a, fst b) /\ W (snd a) (snd b) = Ok (Statistics r, p_value r).
Proof.
  unfold index. destruct (nth_error pr 0) as [a|]; [|intros []].
  rewrite bind_lift_Ok. destruct (nth_error pr 1) as [b|]; [|intros []].
  rewrite bind_lift_Ok, wilcox_bonf_precision_eq.
  destruct (W (snd a) (snd b)) as [[s pv]|e] eqn:HW; cbn; [|intros []].
  intros [<-|[]]. exists a, b. cbn [Pair Statistics p_value]. repeat split. exact HW.
Qed.



(** A section over four algorithms or more, as a run of the omnibus test
    and the comparisons of the first four. *)
Lemma section_cases (metric : MetricRow -> float) (results : list MetricRow) :
  let section :=
    g <- friedman_cell F metric results ;;
    posthoc_loop n_compare_precision (wilcox_bonf_precision W) g in
  (n_algorithms results < 4 /\ section = ([], Raise IndexError)) \/
  (4 <= n_algorithms results /\
   exists e, F (firstn 4 (alg_vals_of metric results)) = Raise e /\
     section = ([Called_friedmanchisquare (firstn 4 (alg_vals_of metric results))], Raise e)) \/
  (4 <= n_algorithms results /\
   exists s pv, F (firstn 4 (alg_vals_of metric results)) = Ok (s, pv) /\
     section =
       (emit (Called_friedmanchisquare (firstn 4 (alg_vals_of metric results))) ;;;
        emit (Printed_omnibus s pv) ;;;
        compare_all_pairs (wilcox_bonf_precision W)
          (firstn 4 (combine (alg_names_of results) (alg_vals_of metric results))))).
Proof.
  cbn zeta. destruct (Nat.lt_ge_cases (n_algorithms results) 4) as [Hlt|Hge].
  - left. split; [exact Hlt|]. rewrite friedman_cell_too_few by exact Hlt. reflexivity.
  - right. destruct (F (firstn 4 (alg_vals_of metric results))) as [[s pv]|e] eqn:HF.
    + right. split; [exact Hge|]. exists s, pv. split; [reflexivity|].
      apply section_first_four; assumption.
    + left. split; [exact Hge|]. exists e. split; [reflexivity|].
      rewrite friedman_cell_four by exact Hge.
      rewrite call_friedmanchisquare_eq, HF. reflexivity.
Qed.

Lemma combine_groups {A B C} (f : A -> B) (h : A -> C) (l : list A) :
  combine (map f l) (map h l) = map (fun x => (f x, h x)) l.
Proof. induction l as [|x l IH]; [reflexivity|]. cbn [map combine]. rewrite IH. reflexivity. Qed.

(** The names of a pair generated from the leading groups are two names of
    the table, the first before the second. *)
Lemma pair_of_first_four (metric : MetricRow -> float) (results : list MetricRow)
    (a b : string * list float) :
  In [a; b] (combinations 2
               (firstn 4 (combine (alg_names_of results) (alg_vals_of metric results)))) ->
  key_lt (fst a) (fst b) /\
  In (fst a) (alg_names_of results) /\ In (fst b) (alg_names_of results).
Proof.
  intros H. apply combinations_2_In in H as (l1 & x & l2 & y & l3 & E & Exy).
  injection Exy as <- <-.
  pose proof (alg_names_of_spec results) as Hspec.
  pose proof (sorted_keys_sorted (map algorithm results)) as Hsorted.
  rewrite <- Hspec in Hsorted.
  assert (Hnames : alg_names_of results =
                   (map fst l1 ++ fst a :: map fst l2 ++ fst b :: map fst l3) ++
                   skipn 4 (alg_names_of results)).
  { rewrite <- (firstn_skipn 4 (alg_names_of results)) at 1. f_equal.
    unfold alg_names_of, alg_vals_of in *. rewrite combine_groups in E.
    rewrite !firstn_map in *.
    replace (map fst (firstn 4 (groupby_algorithm results)))
      with (map fst (map (fun g => (fst g, map metric (snd g)))
                         (firstn 4 (groupby_algorithm results))))
      by (rewrite map_map; reflexivity).
    rewrite E, !map_app. cbn [map]. rewrite map_app. reflexivity. }
  rewrite Hnames in Hsorted |- *. rewrite <- !app_assoc in *. cbn [app] in *.
  rewrite <- !app_assoc in *. cbn [app] in *.
  split; [|split].
  - apply (sorted_app_lt _ _ _ _ Hsorted). apply in_or_app. right. left. reflexivity.
  - apply in_or_app. right. left. reflexivity.
  - apply in_or_app. right. right. apply in_or_app. right. left. reflexivity.
Qed.

Lemma section_printed (metric : MetricRow -> float) (results : list MetricRow)
    (r : PairwiseTestResult) :
  In r (printed_pairs (trace (
    g <- friedman_cell F metric results ;;
    posthoc_loop n_compare_precision (wilcox_bonf_precision W) g))) ->
  key_lt (fst (Pair r)) (snd (Pair r)) /\
  In (fst (Pair r)) (alg_names_of results) /\ In (snd (Pair r)) (alg_names_of results).
Proof.
  destruct (section_cases metric results) as [(_ & ->)|[(_ & e & _ & ->)|(_ & s & pv & _ & ->)]];
    try (intros []).
  intros H. apply printed_bind in H as [[]|(_ & _ & H)].
  apply printed_bind in H as [[]|(_ & _ & H)].
  apply printed_for_each in H as (pr & Hpr & H).
  apply printed_comparison in H as (a & b & Ha & Hb & -> & _).
  assert (E : pr = [a; b]).
  { apply combinations_2_In in Hpr as (_ & x & _ & y & _ & _ & ->).
    cbn in Ha, Hb. congruence. }
  subst pr. cbn [fst snd]. exact (pair_of_first_four metric results a b Hpr).
Qed.


End StageFacts.

(** X7: every result the significance stage prints is labelled with two
    algorithms of the metric table, the first strictly before the second in
    string order: no algorithm is compared with itself and no pair is
    printed in both orders. *)
Theorem X7_printed_pairs_are_ordered :
  forall F W (results : list MetricRow) (r : PairwiseTestResult),
    In r (printed_pairs (trace (significance_stage F W results))) ->
    key_lt (fst (Pair r)) (snd (Pair r)) /\
    fst (Pair r) <> snd (Pair r) /\
    In (fst (Pair r)) (alg_names_of results) /\ In (snd (Pair r)) (alg_names_of results).
Proof.
  intros F W results r H.
  assert (Hsec : key_lt (fst (Pair r)) (snd (Pair r)) /\
                 In (fst (Pair r)) (alg_names_of results) /\
                 In (snd (Pair r)) (alg_names_of results)).
  { unfold significance_stage in H.
    apply printed_bind in H as [H|(_ & _ & H)];
      [exact (section_printed F W precision results r H)|].
    apply printed_bind in H as [H|(_ & _ & H)].
    - exact (section_printed F W ndcg results r H).
    - exact (section_printed F W recip_rank results r H). }
  destruct Hsec as (Hlt & H1 & H2). repeat split; auto.
  intros E. rewrite E in Hlt. exact (key_lt_irrefl _ Hlt).
Qed.

Lemma X7_printed_pairs_are_ordered_witness :
  key_lt "ALS" "Bias".
Proof.
  refine (proj1 (X7_printed_pairs_are_ordered Examples.friedman_difference
                   (Examples.wilcoxon_with 0.5) Examples.four_algorithms
                   {| Pair := ("ALS", "Bias"); Statistics := 0; p_value := 0.5;
                      Decision := decision_same |} _)).
  vm_compute. left. reflexivity.
Defined.



(** X9: when the omnibus test raises on the precision vectors, the stage
    stops with that exception after this one call: no paired test is
    called, nothing is printed, and ndcg and recip_rank are not tested. *)
Theorem X9_omnibus_exception_stops_the_stage :
  forall F W (results : list MetricRow) (e : exn),
    4 <= n_algorithms results ->
    F (firstn 4 (alg_vals_of precision results)) = Raise e ->
    significance_stage F W results =
      ([Called_friedmanchisquare (firstn 4 (alg_vals_of precision results))], Raise e).
Proof.
  intros F W results e Hn HF. unfold significance_stage, precision_section.
  rewrite friedman_cell_four by exact Hn.
  rewrite call_friedmanchisquare_eq, HF. reflexivity.
Qed.

Lemma X9_omnibus_exception_stops_the_stage_witness :
  significance_stage Samples.friedman_fails (Examples.wilcoxon_with 0.5)
    Examples.four_algorithms =
  ([Called_friedmanchisquare (firstn 4 (alg_vals_of precision Examples.four_algorithms))],
   Raise ValueError).
Proof.
  apply (X9_omnibus_exception_stops_the_stage Samples.friedman_fails
           (Examples.wilcoxon_with 0.5) Examples.four_algorithms ValueError).
  - vm_compute. lia.
  - reflexivity.
Defined.

(* ------------------------------------------------------------------ *)
(** ** Missing columns in the prediction table                         *)
(* ------------------------------------------------------------------ *)

Section KeyErrorFacts.

Variable rmse : list cell -> list cell -> result float.

Lemma insert_key_not_nil {K} (cmp : K -> K -> comparison) (k : K) (ks : list K) :
  insert_key cmp k ks <> [].
Proof.
  destruct ks as [|k' ks]; cbn [insert_key]; [discriminate|].
  destruct (cmp k k'); discriminate.
Qed.

Lemma sorted_keys_not_nil {K} (cmp : K -> K -> comparison) (col : list K) :
  col <> [] -> sorted_keys cmp col <> [].
Proof.
  destruct col as [|k col]; [contradiction|]. intros _.
  cbn [sorted_keys fold_right]. apply insert_key_not_nil.
Qed.

(** With its key columns and a row to group, the table has a first group,
    with the columns of the table. *)
Lemma first_group (preds : DataFrame) :
  has_column "algorithm" preds = true -> has_column "user" preds = true ->
  live_rows preds <> [] ->
  exists k g groups,
    groupby_algorithm_user preds = Ok ((k, g) :: groups) /\ columns g = columns preds.
Proof.
  intros Ha Hu Hlive. unfold groupby_algorithm_user. rewrite Ha, Hu. cbn [negb].
  fold (live_rows preds).
  pose proof (sorted_keys_not_nil key_compare (map key_of (live_rows preds))) as Hk.
  destruct (sorted_keys key_compare (map key_of (live_rows preds))) as [|k ks].
  - exfalso. apply Hk; [|reflexivity]. intros E. apply map_eq_nil in E. contradiction.
  - cbn [map]. eexists _, _, _. split; reflexivity.
Qed.

Lemma user_rmse_key_errors (preds : DataFrame) :
  (has_column "algorithm" preds = false ->
   user_rmse rmse preds = Raise (KeyError "algorithm")) /\
  (has_column "algorithm" preds = true -> has_column "user" preds = false ->
   user_rmse rmse preds = Raise (KeyError "user")) /\
  (has_column "algorithm" preds = true -> has_column "user" preds = true ->
   live_rows preds <> [] ->
   (has_column "prediction" preds = false ->
    user_rmse rmse preds = Raise (KeyError "prediction")) /\
   (has_column "prediction" preds = true -> has_column "rating" preds = false ->
    user_rmse rmse preds = Raise (KeyError "rating"))).
Proof.
  split; [|split].
  - intros Ha. unfold user_rmse, groupby_algorithm_user. rewrite Ha. reflexivity.
  - intros Ha Hu. unfold user_rmse, groupby_algorithm_user. rewrite Ha, Hu. reflexivity.
  - intros Ha Hu Hlive.
    destruct (first_group preds Ha Hu Hlive) as (k & g & groups & Hg & Hc).
    unfold user_rmse. rewrite Hg. cbn [rbind apply_groups].
    unfold column, has_column. rewrite Hc.
    fold (has_column "prediction" preds). fold (has_column "rating" preds).
    split.
    + intros Hp. rewrite Hp. reflexivity.
    + intros Hp Hr. rewrite Hp. cbn [rbind]. rewrite Hr. reflexivity.
Qed.

End KeyErrorFacts.

(** X10: the RMSE cell names the first column it misses.  Without an
    algorithm column, or else without a user column, grouping raises
    [KeyError] for that column.  With both, and a row to group, a table
    without a prediction column raises [KeyError] for prediction, and one
    with predictions but no rating column raises [KeyError] for rating,
    before the RMSE function is called. *)
Theorem X10_user_rmse_key_errors :
  forall rmse (preds : DataFrame),
    (has_column "algorithm" preds = false ->
     user_rmse rmse preds = Raise (KeyError "algorithm")) /\
    (has_column "algorithm" preds = true -> has_column "user" preds = false ->
     user_rmse rmse preds = Raise (KeyError "user")) /\
    (has_column "algorithm" preds = true -> has_column "user" preds = true ->
     live_rows preds <> [] ->
     (has_column "prediction" preds = false ->
      user_rmse rmse preds = Raise (KeyError "prediction")) /\
     (has_column "prediction" preds = true -> has_column "rating" preds = false ->
      user_rmse rmse preds = Raise (KeyError "rating"))).
Proof. exact user_rmse_key_errors. Qed.

Lemma X10_user_rmse_key_errors_witness :
  user_rmse Examples.rmse_ref Examples.preds_without_rating = Raise (KeyError "rating").
Proof.
  refine (proj2 (proj2 (proj2 (X10_user_rmse_key_errors Examples.rmse_ref
                                 Examples.preds_without_rating)) _ _ _) _ _);
    try reflexivity.
  discriminate.
Defined.

Lemma X4_chart_table_witness :
  stack_row {| algorithm := "Pop"; user := 1; precision := PrimFloat.nan;
               recip_rank := PrimFloat.nan; ndcg := PrimFloat.nan;
               nrecs := 0; ntruth := 2 |} = [].
Proof.
  refine (proj2 (proj2 (proj2 (X4_chart_table Samples.unfilled))) _ _ _ _); reflexivity.
Defined.

(* ------------------------------------------------------------------ *)
(** ** What the stage can raise, and what a load keeps                 *)
(* ------------------------------------------------------------------ *)

Section StageExceptions.

Variable F : list (list float) -> result (float * float).
Variable W : list float -> list float -> result (float * float).

Lemma outcome_for_each {A} (xs : list A) (body : A -> M unit) (e : exn) :
  outcome (for_each xs body) = Raise e ->
  exists x, In x xs /\ outcome (body x) = Raise e.
Proof.
  induction xs as [|x xs IH]; cbn [for_each]; [discriminate|].
  rewrite outcome_bind. destruct (outcome (body x)) as [[]|e'] eqn:E.
  - intros H. destruct (IH H) as (y & Hy & Hr). exists y. split; [right; exact Hy | exact Hr].
  - intros H. injection H as ->. exists x. split; [left; reflexivity | exact E].
Qed.

(** The comparisons index the leading groups within bounds: they raise only
    what the paired test raises. *)
Lemma compare_all_pairs_raises (algs : list (string * list float)) (e : exn) :
  outcome (compare_all_pairs (wilcox_bonf_precision W) algs) = Raise e ->
  exists x y, W x y = Raise e.
Proof.
  intros H. apply outcome_for_each in H as (pr & Hpr & H).
  apply combinations_2_In in Hpr as (_ & a & _ & b & _ & _ & ->).
  unfold index in H. cbn [nth_error] in H.
  rewrite !bind_lift_Ok, wilcox_bonf_precision_eq in H.
  destruct (W (snd a) (snd b)) as [[s pv]|e'] eqn:HW; [discriminate H|].
  injection H as ->. exists (snd a), (snd b). exact HW.
Qed.

Lemma section_raises (metric : MetricRow -> float) (results : list MetricRow) (e : exn) :
  outcome (g <- friedman_cell F metric results ;;
           posthoc_loop n_compare_precision (wilcox_bonf_precision W) g) = Raise e ->
  (n_algorithms results < 4 /\ e = IndexError) \/
  (exists l, F l = Raise e) \/ (exists x y, W x y = Raise e).
Proof.
  destruct (section_cases F W metric results)
    as [(Hlt & ->)|[(_ & e' & HF & ->)|(_ & s & pv & _ & ->)]]; intros H.
  - left. injection H as <-. auto.
  - right. left. injection H as <-. eexists. exact HF.
  - right. right. rewrite !outcome_bind in H. cbn [emit outcome snd] in H.
    exact (compare_all_pairs_raises _ e H).
Qed.

End StageExceptions.

(** X14: the significance stage raises nothing of its own on four algorithms
    or more.  An exception that ends it is the [IndexError] of a table with
    fewer than four algorithms, or an exception that the omnibus test or the
    paired test raised: the indices of the post-hoc loop are always within
    bounds. *)
Theorem X14_stage_exceptions :
  forall F W (results : list MetricRow) (e : exn),
    outcome (significance_stage F W results) = Raise e ->
    (n_algorithms results < 4 /\ e = IndexError) \/
    (exists l, F l = Raise e) \/ (exists x y, W x y = Raise e).
Proof.
  intros F W results e H. unfold significance_stage in H.
  rewrite outcome_bind in H.
  destruct (outcome (precision_section F W results)) as [[]|e1] eqn:E1.
  - rewrite outcome_bind in H.
    destruct (outcome (ndcg_section F W results)) as [[]|e2] eqn:E2.
    + exact (section_raises F W recip_rank results e H).
    + injection H as ->. exact (section_raises F W ndcg results e E2).
  - injection H as ->. exact (section_raises F W precision results e E1).
Qed.

Lemma X14_stage_exceptions_witness :
  (n_algorithms Examples.one_algorithm < 4 /\ IndexError = IndexError) \/
  (exists l, Examples.friedman_difference l = Raise IndexError) \/
  (exists x y, Examples.wilcoxon_with 0.5 x y = Raise IndexError).
Proof.
  exact (X14_stage_exceptions Examples.friedman_difference (Examples.wilcoxon_with 0.5)
           Examples.one_algorithm IndexError eq_refl).
Defined.

Section LoadKeeps.

Variable read_csv : string -> result DataFrame.

Lemma inner_loop_complete (fld : Folder) (fs : list File) :
  forall acc frames,
    foldM (read_tagged read_csv fld) fs acc = Ok frames ->
    exists new, frames = acc ++ new /\
      forall f, In f fs ->
        exists rec d a rest,
          read_csv (content f) = Ok rec /\ split dash (name fld) = d :: a :: rest /\
          In (assign "algorithm" (Str a) (assign "dataset" (Str d) rec)) new.
Proof.
  induction fs as [|f fs IH]; intros acc frames H.
  - injection H as <-. exists []. rewrite app_nil_r. split; [reflexivity | intros ? []].
  - cbn [foldM] in H. unfold read_tagged at 1 in H.
    destruct (read_csv (content f)) as [rec|e] eqn:Hrec; [|discriminate H].
    cbn [rbind] in H.
    destruct (split dash (name fld)) as [|d [|a rest]] eqn:Hsplit; try discriminate H.
    cbn [index nth_error rbind] in H.
    destruct (IH _ _ H) as (new & -> & Hnew).
    exists (assign "algorithm" (Str a) (assign "dataset" (Str d) rec) :: new).
    rewrite <- app_assoc. split; [reflexivity|].
    intros f' [<-|Hf'].
    + exists rec, d, a, rest. repeat split; auto. left. reflexivity.
    + destruct (Hnew f' Hf') as (rec' & d' & a' & rest' & H1 & H2 & H3).
      exists rec', d', a', rest'. repeat split; auto. right. exact H3.
Qed.

Lemma outer_loop_complete (pre : string) (sub : list Folder) :
  forall acc frames,
    foldM (fun acc fld => foldM (read_tagged read_csv fld) (glob_prefix pre fld) acc)
          sub acc = Ok frames ->
    exists new, frames = acc ++ new /\
      forall fld f, In fld sub -> In f (glob_prefix pre fld) ->
        exists rec d a rest,
          read_csv (content f) = Ok rec /\ split dash (name fld) = d :: a :: rest /\
          In (assign "algorithm" (Str a) (assign "dataset" (Str d) rec)) new.
Proof.
  induction sub as [|fld sub IH]; intros acc frames H.
  - injection H as <-. exists []. rewrite app_nil_r. split; [reflexivity | intros ? ? []].
  - cbn [foldM] in H.
    destruct (foldM (read_tagged read_csv fld) (glob_prefix pre fld) acc)
      as [mid|e] eqn:Hmid; [|discriminate H].
    cbn [rbind] in H.
    destruct (inner_loop_complete fld _ _ _ Hmid) as (new1 & -> & H1).
    destruct (IH _ _ H) as (new2 & -> & H2).
    exists (new1 ++ new2). rewrite <- app_assoc. split; [reflexivity|].
    intros fld' f [<-|Hfld] Hf.
    + destruct (H1 f Hf) as (rec & d & a & rest & Ha & Hb & Hc).
      exists rec, d, a, rest. repeat split; auto. apply in_or_app. left. exact Hc.
    + destruct (H2 fld' f Hfld Hf) as (rec & d & a & rest & Ha & Hb & Hc).
      exists rec, d, a, rest. repeat split; auto. apply in_or_app. right. exact Hc.
Qed.

Lemma loaded_rows_complete (pre dataset : string) (output_root : list Folder)
    (df : DataFrame) :
  rbind (read_all read_csv pre (dirs dataset output_root)) concat = Ok df ->
  forall fld f, In fld (dirs dataset output_root) -> In f (glob_prefix pre fld) ->
    exists rec d a rest,
      read_csv (content f) = Ok rec /\ split dash (name fld) = d :: a :: rest /\
      forall r0, In r0 (rows rec) ->
        In (set "algorithm" (Str a) (set "dataset" (Str d) r0)) (rows df).
Proof.
  intros H fld f Hfld Hf. unfold read_all in H.
  destruct (foldM _ (dirs dataset output_root) []) as [frames|e] eqn:Hfr; [|discriminate H].
  cbn [rbind] in H.
  destruct (outer_loop_complete pre _ _ _ Hfr) as (new & -> & Hnew).
  destruct (Hnew fld f Hfld Hf) as (rec & d & a & rest & H1 & H2 & H3).
  exists rec, d, a, rest. split; [exact H1|]. split; [exact H2|].
  intros r0 Hr0. apply concat_Ok in H as (_ & -> & _).
  apply in_flat_map. eexists. split; [exact H3|].
  unfold assign. cbn [rows]. apply in_map, in_map. exact Hr0.
Qed.

End LoadKeeps.

(** X15: a load that succeeds keeps every row: each file under the pattern
    in each matched folder parsed, and each of its rows is in the table,
    labelled with the first two parts of the folder name. *)
Theorem X15_load_keeps_every_row :
  forall read_csv (dataset : string) (output_root : list Folder)
         (load : _ -> _ -> _ -> result DataFrame) (pre : string) (df : DataFrame),
    In (load, pre) [(load_recs, "recs-"); (load_preds, "pred-")] ->
    load read_csv dataset output_root = Ok df ->
    forall fld f, In fld (dirs dataset output_root) -> In f (glob_prefix pre fld) ->
      exists rec d a rest,
        read_csv (content f) = Ok rec /\ split dash (name fld) = d :: a :: rest /\
        forall r0, In r0 (rows rec) ->
          In (set "algorithm" (Str a) (set "dataset" (Str d) r0)) (rows df).
Proof.
  intros read_csv dataset output_root load pre df Hload H.
  apply (loaded_rows_complete read_csv pre dataset output_root df).
  destruct Hload as [E|[E|[]]]; injection E as <- <-; exact H.
Qed.

Lemma X15_load_keeps_every_row_witness :
  exists rec d a rest,
    Examples.read_csv_stub "user,item,score" = Ok rec /\
    split dash "ml100k-ALS" = d :: a :: rest /\
    forall r0, In r0 (rows rec) ->
      In (set "algorithm" (Str a) (set "dataset" (Str d) r0))
         (rows {| columns := ["user"; "item"; "score"; "dataset"; "algorithm"];
                  rows := [[("user", Int 1); ("item", Int 10); ("score", Num 4.5);
                            ("dataset", Str "ml100k"); ("algorithm", Str "ALS")]] |}).
Proof.
  refine (X15_load_keeps_every_row Examples.read_csv_stub "ml100k" Examples.output_root
            load_recs "recs-" _ _ _
            {| name := "ml100k-ALS";
               files := [ {| file_name := "recs-1.csv"; content := "user,item,score" |} ] |}
            {| file_name := "recs-1.csv"; content := "user,item,score" |} _ _).
  - left. reflexivity.
  - reflexivity.
  - left. reflexivity.
  - left. reflexivity.
Defined.
